(** * gruv_socks: length-prefixed messages over a stream socket

    A shallow embedding of [gruv_socks/gruv_socks.py]: the [Socket] class
    (connect / read / write / disconnect, [__add__]) and the [ServerBase]
    class (start / stop and the accept loop), with the properties of the
    framing protocol and of the two lifecycles.

    The Python methods mutate [self] and call into the socket layer of the
    platform, so they are written in a small monad that threads the object
    and the state of the platform, and gives back how the call ended (a
    value or a raised exception) together with the trace of platform calls,
    console lines and started threads it produced.  The platform (socket,
    select, recv, send, ...) is an interface: the general theorems hold for
    every implementation of it, and a loop-back network [Net] gives
    concrete runs.

    Modelling choices:
    - an exception is an instance of a subclass of [Exception], which is
      what the handlers of the module catch; [KeyboardInterrupt] is
      modelled where the module handles it, in the wait of the accept loop;
    - the two [while] loops of [Socket] and the accept loop take fuel, and a
      run that is still in its loop when the fuel is spent ends as
      [OutOfFuel];
    - a started thread is an event of the trace, it is not run. *)

From Stdlib Require Import ZArith List String Bool Lia.
From Stdlib.Strings Require Import Byte.
Import ListNotations.
Local Open Scope string_scope.
Local Open Scope list_scope.
Local Open Scope Z_scope.

(** ** Python values *)

(** A [bytes] object. *)
Definition bytes := list byte.

(** [len(x)] *)
Definition len {A : Type} (l : list A) : Z := Z.of_nat (List.length l).

(** [data[start:]] with Python's treatment of a negative start. *)
Definition slice_from {A : Type} (data : list A) (start : Z) : list A :=
  if start <? 0 then skipn (Z.to_nat (Z.max 0 (len data + start))) data
  else skipn (Z.to_nat start) data.

Definition byte_of_Z (z : Z) : byte :=
  match Byte.of_N (Z.to_N (z mod 256)) with
  | Some b => b
  | None => x00
  end.

Definition Z_of_byte (b : byte) : Z := Z.of_N (Byte.to_N b).

(** Exceptions, by the classes the handlers of the module tell apart:
    [struct.error], [socket.error] (an alias of [OSError]) and any other
    subclass of [Exception]. *)
Inductive exn_class := StructError | SocketError | OtherException.

Record exn := Exn { exn_kind : exn_class; exn_msg : string }.

(** [struct.pack(">I", n)]: four bytes, most significant first;
    [struct.error] unless [0 <= n <= 0xFFFFFFFF]. *)
Definition pack_I (n : Z) : exn + bytes :=
  if (0 <=? n) && (n <=? 4294967295) then
    inr [byte_of_Z (Z.shiftr n 24); byte_of_Z (Z.shiftr n 16);
         byte_of_Z (Z.shiftr n 8); byte_of_Z n]
  else inl (Exn StructError "'I' format requires 0 <= number <= 4294967295").

(** [struct.unpack(">I", b)[0]]: [struct.error] unless [b] has exactly four
    bytes. *)
Definition unpack_I (b : bytes) : exn + Z :=
  match b with
  | [b3; b2; b1; b0] =>
      inr (Z.lor (Z.shiftl (Z_of_byte b3) 24)
          (Z.lor (Z.shiftl (Z_of_byte b2) 16)
          (Z.lor (Z.shiftl (Z_of_byte b1) 8) (Z_of_byte b0))))
  | _ => inl (Exn StructError "unpack requires a buffer of 4 bytes")
  end.

(** [str.encode()]: UTF-8 of a string given by its code points;
    [UnicodeEncodeError] on a lone surrogate. *)
Definition utf8_char (c : Z) : option bytes :=
  if c <? 0 then None
  else if c <? 128 then Some [byte_of_Z c]
  else if c <? 2048 then
    Some [byte_of_Z (192 + c / 64); byte_of_Z (128 + c mod 64)]
  else if (55296 <=? c) && (c <=? 57343) then None
  else if c <? 65536 then
    Some [byte_of_Z (224 + c / 4096); byte_of_Z (128 + (c / 64) mod 64);
          byte_of_Z (128 + c mod 64)]
  else if c <? 1114112 then
    Some [byte_of_Z (240 + c / 262144); byte_of_Z (128 + (c / 4096) mod 64);
          byte_of_Z (128 + (c / 64) mod 64); byte_of_Z (128 + c mod 64)]
  else None.

Fixpoint encode (s : list Z) : exn + bytes :=
  match s with
  | [] => inr []
  | c :: s' =>
      match utf8_char c, encode s' with
      | Some b, inr rest => inr (b ++ rest)
      | None, _ => inl (Exn OtherException "'utf-8' codec can't encode character")
      | _, inl e => inl e
      end
  end.

(** The argument of [write]: [data: bytes or str]. *)
Inductive pydata :=
| PyBytes (b : bytes)
| PyStr (s : list Z).

(** [if isinstance(data, str): data = data.encode()] *)
Definition to_bytes (data : pydata) : exn + bytes :=
  match data with
  | PyStr text => encode text
  | PyBytes b => inr b
  end.

(** ** The module's constants *)

Definition SOCK_ERROR : bytes := [x01].
Definition SOCK_TIMEOUT : bytes := [x00].

(** ** Objects *)

(** A raw socket object of the platform, named by its descriptor. *)
Definition handle := Z.

(** [class Socket]: [self.timeout], [self.debug], [self.__sock]. *)
Record Socket := mkSocket {
  timeout : Z;
  debug : bool;
  sock : option handle
}.

(** [Socket.__init__(self, sock=None, timeout=60, debug=False)] *)
Definition Socket_init (sock : option handle) (timeout : Z) (debug : bool) : Socket :=
  mkSocket timeout debug sock.

Definition set_sock (s : option handle) (self : Socket) : Socket :=
  mkSocket (timeout self) (debug self) s.

(** [class ServerBase]: [self.debug], [self.running], [self.__listener]. *)
Record ServerBase := mkServer {
  server_debug : bool;
  running : bool;
  listener : option handle
}.

(** [ServerBase.__init__(self, debug=False)] *)
Definition ServerBase_init (debug : bool) : ServerBase :=
  mkServer debug false None.

Definition set_running (b : bool) (self : ServerBase) : ServerBase :=
  mkServer (server_debug self) b (listener self).

Definition set_listener (l : option handle) (self : ServerBase) : ServerBase :=
  mkServer (server_debug self) (running self) l.

(** ** The platform *)

(** What a call into the platform gives back: a value or an exception. *)
Inductive outcome (A : Type) : Type :=
| Done (a : A)
| Failed (e : exn).
Arguments Done {A} a.
Arguments Failed {A} e.

(** The accept loop's 100 ms wait on the listener; the one place the module
    handles [KeyboardInterrupt]. *)
Inductive poll :=
| PollReady
| PollEmpty
| PollFailed (e : exn)
| PollInterrupt.

(** A user callback is opaque to the module: it is only handed to threads. *)
Definition callback := string.

(** What a started thread runs. *)
Inductive task :=
| TaskListen (cb : callback)
| TaskCallback (cb : callback) (addr : string * Z) (conn : Socket).

(** The socket layer, [select], and what else the module calls, over a
    platform state [W].  [os_select h t] answers whether [h] became readable
    within [t] seconds; [os_send] returns the number of bytes it took. *)
Class Platform (W : Type) := {
  os_socket : W -> outcome handle * W;
  os_settimeout : handle -> Z -> W -> outcome unit * W;
  os_connect : handle -> string -> Z -> W -> outcome unit * W;
  os_select : handle -> Z -> W -> outcome bool * W;
  os_recv : handle -> Z -> W -> outcome bytes * W;
  os_send : handle -> bytes -> W -> outcome Z * W;
  os_shutdown : handle -> W -> outcome unit * W;
  os_close : handle -> W -> outcome unit * W;
  os_bind : handle -> string -> Z -> W -> outcome unit * W;
  os_listen : handle -> W -> outcome unit * W;
  os_poll : handle -> W -> poll * W;
  os_accept : handle -> W -> outcome (handle * (string * Z)) * W
}.

(** What a run leaves behind for an observer: each platform call with its
    answer, each console line, each traceback, each thread started. *)
Inductive event :=
| EvSocket (r : outcome handle)
| EvSetTimeout (h : handle) (t : Z) (r : outcome unit)
| EvConnect (h : handle) (host : string) (port : Z) (r : outcome unit)
| EvSelect (h : handle) (t : Z) (r : outcome bool)
| EvRecv (h : handle) (n : Z) (r : outcome bytes)
| EvSend (h : handle) (buf : bytes) (r : outcome Z)
| EvShutdown (h : handle) (r : outcome unit)
| EvClose (h : handle) (r : outcome unit)
| EvBind (h : handle) (address : string) (port : Z) (r : outcome unit)
| EvListen (h : handle) (r : outcome unit)
| EvPoll (h : handle) (r : poll)
| EvAccept (h : handle) (r : outcome (handle * (string * Z)))
| EvSleep (milliseconds : Z)
| EvPrint (line : string)
| EvPrintExc (e : exn)
| EvThread (t : task).

(** ** The monad of method bodies *)

(** How a method body ends: a value, an exception of class [Exception], a
    [KeyboardInterrupt], or a loop still running when the fuel is spent. *)
Inductive result (A : Type) : Type :=
| Ok (a : A)
| Raise (e : exn)
| Interrupted
| OutOfFuel.
Arguments Ok {A} a.
Arguments Raise {A} e.
Arguments Interrupted {A}.
Arguments OutOfFuel {A}.

(** A finished run over an object of class [O] on a platform of state [W]. *)
Record run (W O A : Type) := mkRun {
  res : result A;
  obj : O;
  world : W;
  trace : list event
}.
Arguments mkRun {W O A}.
Arguments res {W O A}.
Arguments obj {W O A}.
Arguments world {W O A}.
Arguments trace {W O A}.

Definition M (W O A : Type) : Type := O -> W -> run W O A.

Definition ret {W O A} (a : A) : M W O A :=
  fun o w => mkRun (Ok a) o w [].

Definition raise {W O A} (e : exn) : M W O A :=
  fun o w => mkRun (Raise e) o w [].

Definition out_of_fuel {W O A} : M W O A :=
  fun o w => mkRun OutOfFuel o w [].

(** The run [r], with the events [t] that came before it. *)
Definition after {W O A} (t : list event) (r : run W O A) : run W O A :=
  match r with
  | mkRun x o w t' => mkRun x o w (t ++ t')
  end.

Arguments after {W O A} t !r /.

Definition bind {W O A B} (c : M W O A) (k : A -> M W O B) : M W O B :=
  fun o w =>
    match c o w with
    | mkRun (Ok a) o' w' t => after t (k a o' w')
    | mkRun (Raise e) o' w' t => mkRun (Raise e) o' w' t
    | mkRun Interrupted o' w' t => mkRun Interrupted o' w' t
    | mkRun OutOfFuel o' w' t => mkRun OutOfFuel o' w' t
    end.

(** [try: c  except Exception as err: handler(err)] *)
Definition try_except {W O A} (c : M W O A) (handler : exn -> M W O A) : M W O A :=
  fun o w =>
    match c o w with
    | mkRun (Raise e) o' w' t => after t (handler e o' w')
    | r => r
    end.

(** How a [try] statement ends when its body ended as [body] and its
    [finally] clause as [final]: an exception of the clause replaces the
    body's. *)
Definition finally_result {A} (body : result A) (final : result unit) : result A :=
  match final with
  | Ok _ => body
  | Raise e => Raise e
  | Interrupted => Interrupted
  | OutOfFuel => OutOfFuel
  end.

(** [try: c  finally: f] *)
Definition try_finally {W O A} (c : M W O A) (f : M W O unit) : M W O A :=
  fun o w =>
    match c o w with
    | mkRun OutOfFuel o' w' t => mkRun OutOfFuel o' w' t
    | mkRun x o' w' t =>
        match f o' w' with
        | mkRun y o'' w'' t' => mkRun (finally_result x y) o'' w'' (t ++ t')
        end
    end.

(** [try: c  except KeyboardInterrupt: handler] *)
Definition try_interrupt {W O A} (c : M W O A) (handler : M W O A) : M W O A :=
  fun o w =>
    match c o w with
    | mkRun Interrupted o' w' t => after t (handler o' w')
    | r => r
    end.

Definition get_self {W O} : M W O O :=
  fun o w => mkRun (Ok o) o w [].

Definition modify_self {W O} (f : O -> O) : M W O unit :=
  fun o w => mkRun (Ok tt) (f o) w [].

Definition emit {W O} (e : event) : M W O unit :=
  fun o w => mkRun (Ok tt) o w [e].

(** A call into the platform, recorded with its answer. *)
Definition syscall {W O A} (f : W -> outcome A * W) (ev : outcome A -> event)
    : M W O A :=
  fun o w =>
    let (r, w') := f w in
    mkRun (match r with Done a => Ok a | Failed e => Raise e end) o w' [ev r].

Definition lift {W O A} (r : exn + A) : M W O A :=
  match r with
  | inr a => ret a
  | inl e => raise e
  end.

Definition print {W O} (line : string) : M W O unit := emit (EvPrint line).

(** [traceback.print_exc()] inside a handler for [err]. *)
Definition print_exc {W O} (err : exn) : M W O unit := emit (EvPrintExc err).

Declare Scope py_scope.
Delimit Scope py_scope with py.
Notation "x <- c ;; k" := (bind c (fun x => k))
  (at level 61, c at next level, right associativity) : py_scope.
Notation "c ;; k" := (bind c (fun _ => k))
  (at level 61, right associativity) : py_scope.
Local Open Scope py_scope.

(** ** class Socket *)

Section SocketMethods.

Context {W : Type} {os : Platform W}.

(** [if self.debug: print_exc()] *)
Definition debug_trace (err : exn) : M W Socket unit :=
  self <- get_self ;;
  if debug self then print_exc err else ret tt.

(** The [except Exception as err] clause of [connect]. *)
Definition connect_except (err : exn) : M W Socket bool :=
  debug_trace err ;;
  print ("[SOCKET ERROR] (Socket.connect) could not connect, reason: "
         ++ exn_msg err)%string ;;
  ret false.

(** [Socket.connect(self, host, port)] *)
Definition connect (host : string) (port : Z) : M W Socket bool :=
  self <- get_self ;;
  match sock self with
  | Some _ =>
      print "[ERROR] (Socket.connect) could not connect, reason: socket already connected" ;;
      ret false
  | None =>
      try_except
        (s <- syscall os_socket EvSocket ;;
         modify_self (set_sock (Some s)) ;;
         syscall (os_settimeout s (timeout self)) (EvSetTimeout s (timeout self)) ;;
         syscall (os_connect s host port) (EvConnect s host port) ;;
         ret true)
        connect_except
  end.

(** The [while data_length < message_length] loop of [read]; [fragments] is
    the list the buffers are appended to. *)
Fixpoint read_loop (fuel : nat) (s : handle) (message_length data_length : Z)
    (fragments : list bytes) : M W Socket (list bytes) :=
  if data_length <? message_length then
    match fuel with
    | O => out_of_fuel
    | S fuel' =>
        buffer <- syscall (os_recv s (message_length - data_length))
                          (EvRecv s (message_length - data_length)) ;;
        read_loop fuel' s message_length (data_length + len buffer)
                  (fragments ++ [buffer])
    end
  else ret fragments.

(** The three [except] clauses of [read] and [write]: the class of the
    exception picks the tag of the console line. *)
Definition report (method what : string) (err : exn) : M W Socket unit :=
  debug_trace err ;;
  match exn_kind err with
  | StructError =>
      print ("[STRUCT ERROR] (Socket." ++ method ++ ") could not " ++ what
             ++ " data, reason: " ++ exn_msg err)%string
  | SocketError =>
      print ("[SOCKET ERROR] (Socket." ++ method ++ ") could not " ++ what
             ++ " data, reason: " ++ exn_msg err)%string
  | OtherException =>
      print ("[ERROR] (Socket." ++ method ++ ") could not " ++ what
             ++ " data, reason: " ++ exn_msg err)%string
  end.

(** The [except] clauses of [read]: each returns [(False, SOCK_ERROR)]. *)
Definition read_except (err : exn) : M W Socket (bool * bytes) :=
  report "read" "receive" err ;;
  ret (false, SOCK_ERROR).

(** [Socket.read(self, timeout_override=0)] *)
Definition read (fuel : nat) (timeout_override : Z) : M W Socket (bool * bytes) :=
  self <- get_self ;;
  let timeout := if negb (timeout_override =? 0) then timeout_override
                 else timeout self in
  match sock self with
  | None =>
      print "[ERROR] (Socket.read) could not receive data, reason: socket is not connected" ;;
      ret (false, SOCK_TIMEOUT)
  | Some s =>
      try_except
        (readable <- syscall (os_select s timeout) (EvSelect s timeout) ;;
         if negb readable then ret (false, [x00])
         else
           header <- syscall (os_recv s 4) (EvRecv s 4) ;;
           message_length <- lift (unpack_I header) ;;
           fragments <- read_loop fuel s message_length 0 [] ;;
           ret (true, List.concat fragments))
        read_except
  end.

(** The [while sent < length] loop of [write]. *)
Fixpoint write_loop (fuel : nat) (s : handle) (data : bytes) (length sent : Z)
    : M W Socket unit :=
  if sent <? length then
    match fuel with
    | O => out_of_fuel
    | S fuel' =>
        n <- syscall (os_send s (slice_from data sent))
                     (EvSend s (slice_from data sent)) ;;
        write_loop fuel' s data length (sent + n)
    end
  else ret tt.

(** The [except] clauses of [write]: each returns [False]. *)
Definition write_except (err : exn) : M W Socket bool :=
  report "write" "send" err ;;
  ret false.

(** [Socket.write(self, data)] *)
Definition write (fuel : nat) (data : pydata) : M W Socket bool :=
  self <- get_self ;;
  match sock self with
  | None =>
      print "[ERROR] (Socket.write) could not send data, reason: socket is not connected" ;;
      ret false
  | Some s =>
      data <- lift (to_bytes data) ;;
      let sent := 0 in
      let length := len data in
      try_except
        (prefix <- lift (pack_I length) ;;
         let data := prefix ++ data in
         write_loop fuel s data length sent ;;
         ret true)
        write_except
  end.

(** [Socket.__add__(self, x)] *)
Definition __add__ (fuel : nat) (x : pydata) : M W Socket bool :=
  write fuel x.

(** [Socket.disconnect(self)] *)
Definition disconnect : M W Socket unit :=
  self <- get_self ;;
  match sock self with
  | None => ret tt
  | Some s =>
      try_finally
        (try_except (syscall (os_shutdown s) (EvShutdown s)) (fun _ => ret tt))
        (try_finally
           (try_except (syscall (os_close s) (EvClose s)) (fun _ => ret tt))
           (modify_self (set_sock None)))
  end.

(** [Socket.__del__(self)] *)
Definition __del__ : M W Socket unit := disconnect.

End SocketMethods.

(** ** class ServerBase *)

Section ServerMethods.

Context {W : Type} {os : Platform W}.

(** [select([self.__listener], [], [], 0.1)[0] == []], negated. *)
Definition poll_listener (l : handle) : M W ServerBase bool :=
  fun o w =>
    let (r, w') := os_poll l w in
    mkRun (match r with
           | PollReady => Ok true
           | PollEmpty => Ok false
           | PollFailed e => Raise e
           | PollInterrupt => Interrupted
           end) o w' [EvPoll l r].

(** The [try] block of one turn of the accept loop. *)
Definition listen_turn (cb : callback) : M W ServerBase unit :=
  self <- get_self ;;
  match listener self with
  | None => raise (Exn OtherException "argument must be an int, or have a fileno() method")
  | Some l =>
      pending <- poll_listener l ;;
      if negb pending then ret tt
      else
        conn <- syscall (os_accept l) (EvAccept l) ;;
        emit (EvThread (TaskCallback cb (snd conn)
                          (Socket_init (Some (fst conn)) 60 (server_debug self))))
  end.

(** [ServerBase.__listen(self, callback)] *)
Fixpoint __listen (fuel : nat) (cb : callback) : M W ServerBase unit :=
  self <- get_self ;;
  if running self then
    match fuel with
    | O => out_of_fuel
    | S fuel' =>
        try_except
          (try_interrupt (listen_turn cb) (modify_self (set_running false)))
          (fun err =>
             self <- get_self ;;
             (if server_debug self then print_exc err else ret tt) ;;
             if running self
             then print ("[ERROR] (ServerBase.__listen): " ++ exn_msg err)%string
             else ret tt) ;;
        __listen fuel' cb
    end
  else ret tt.

(** [ServerBase.start(self, callback, port, address="0.0.0.0", blocking=False)] *)
Definition start (fuel : nat) (cb : callback) (port : Z) (address : string)
    (blocking : bool) : M W ServerBase unit :=
  self <- get_self ;;
  match listener self with
  | Some _ => raise (Exn OtherException "server is already listening")
  | None =>
      l <- syscall os_socket EvSocket ;;
      modify_self (set_listener (Some l)) ;;
      syscall (os_bind l address port) (EvBind l address port) ;;
      syscall (os_listen l) (EvListen l) ;;
      modify_self (set_running true) ;;
      if blocking then __listen fuel cb
      else emit (EvThread (TaskListen cb))
  end.

(** A method call on [self.__listener], which may be [None]. *)
Definition on_listener (f : handle -> W -> outcome unit * W)
    (ev : handle -> outcome unit -> event) (name : string) : M W ServerBase unit :=
  self <- get_self ;;
  match listener self with
  | None => raise (Exn OtherException
                     ("'NoneType' object has no attribute '" ++ name ++ "'")%string)
  | Some l => syscall (f l) (ev l)
  end.

(** [ServerBase.stop(self)] *)
Definition stop : M W ServerBase unit :=
  modify_self (set_running false) ;;
  emit (EvSleep 200) ;;
  try_finally
    (try_except (on_listener os_shutdown EvShutdown "shutdown") (fun _ => ret tt))
    (try_except (on_listener os_close EvClose "close") (fun _ => ret tt)) ;;
  modify_self (set_listener None).


(** [echo_callback(addr, sock)] *)
Definition echo_callback (fuel : nat) (addr : string * Z) : M W Socket unit :=
  answer <- read fuel 0 ;;
  write fuel (PyBytes (snd answer)) ;;
  disconnect.

End ServerMethods.

(** ** A loop-back network

    One stream between two descriptors: what any descriptor sends joins the
    wire, what any descriptor receives leaves it.  A single call moves at
    most [mtu] bytes.  A receive on an empty wire reads end of stream (the
    empty bytes object) once the sending side has closed, and times out
    otherwise.  The network looks neither at the timeout handed to [select]
    nor at the port handed to [connect]: it answers as a host does for a
    timeout that [select] accepts (not negative, at most 2^31-1 seconds) and
    a port from 0 to 65535. *)
Record Net := mkNet {
  wire : bytes;
  mtu : Z;
  peer_closed : bool;
  reachable : bool;
  next_fd : handle
}.

Definition net_socket (w : Net) : outcome handle * Net :=
  (Done (next_fd w),
   mkNet (wire w) (mtu w) (peer_closed w) (reachable w) (next_fd w + 1)).

Definition net_connect (h : handle) (host : string) (port : Z) (w : Net)
    : outcome unit * Net :=
  if reachable w then (Done tt, w)
  else (Failed (Exn SocketError "[Errno 111] Connection refused"), w).

Definition net_select (h : handle) (t : Z) (w : Net) : outcome bool * Net :=
  (Done (match wire w with [] => peer_closed w | _ => true end), w).

Definition net_recv (h : handle) (n : Z) (w : Net) : outcome bytes * Net :=
  if n <? 0 then (Failed (Exn OtherException "negative buffersize in recv"), w)
  else
    match wire w with
    | [] => if peer_closed w then (Done [], w)
            else (Failed (Exn SocketError "timed out"), w)
    | _ =>
        let k := Z.to_nat (Z.min n (mtu w)) in
        (Done (firstn k (wire w)),
         mkNet (skipn k (wire w)) (mtu w) (peer_closed w) (reachable w) (next_fd w))
    end.

Definition net_send (h : handle) (buf : bytes) (w : Net) : outcome Z * Net :=
  let n := Z.max 0 (Z.min (len buf) (mtu w)) in
  (Done n,
   mkNet (wire w ++ firstn (Z.to_nat n) buf) (mtu w) (peer_closed w)
         (reachable w) (next_fd w)).

Definition net_shutdown (h : handle) (w : Net) : outcome unit * Net :=
  (Done tt, mkNet (wire w) (mtu w) true (reachable w) (next_fd w)).

Definition net_listen (h : handle) (w : Net) : outcome unit * Net :=
  (Done tt, mkNet (wire w) (mtu w) (peer_closed w) true (next_fd w)).

#[export] Instance Net_platform : Platform Net := {
  os_socket := net_socket;
  os_settimeout := fun _ _ w => (Done tt, w);
  os_connect := net_connect;
  os_select := net_select;
  os_recv := net_recv;
  os_send := net_send;
  os_shutdown := net_shutdown;
  os_close := fun _ w => (Done tt, w);
  os_bind := fun _ _ _ w => (Done tt, w);
  os_listen := net_listen;
  os_poll := fun _ w => (PollEmpty, w);
  os_accept := fun _ w => (Failed (Exn SocketError "Resource temporarily unavailable"), w)
}.

(** An idle stream whose calls move at most [m] bytes. *)
Definition idle_net (m : Z) : Net := mkNet [] m false true 5.

(** [writer.write(data)] on one end, then [reader.read()] on the peer. *)
Definition write_then_read (fuel : nat) (writer reader : Socket) (data : pydata)
    (w : Net) : result bool * result (bool * bytes) :=
  let sent := write fuel data writer w in
  let got := read fuel 0 reader (world sent) in
  (res sent, res got).

(** ** Observations on runs *)

(** The platform calls that create, shut down or close a raw socket. *)
Definition releases_handle (ev : event) : bool :=
  match ev with
  | EvSocket _ | EvShutdown _ _ | EvClose _ _ => true
  | _ => false
  end.

(** [quiet c]: whatever the platform answers, [c] returns the object it was
    given and makes no call that creates, shuts down or closes a socket. *)
Definition quiet {W O A} (c : M W O A) : Prop :=
  forall (o : O) (w : W),
    obj (c o w) = o /\ existsb releases_handle (trace (c o w)) = false.

(** The platform calls that put bytes on the wire. *)
Definition is_send (ev : event) : bool :=
  match ev with
  | EvSend _ _ _ => true
  | _ => false
  end.

(** The bytes the [recv] calls of a trace returned, in order. *)
Fixpoint received (t : list event) : bytes :=
  match t with
  | [] => []
  | EvRecv _ _ (Done b) :: t' => b ++ received t'
  | _ :: t' => received t'
  end.

(** The console lines of one [except] clause of [read] or [write]. *)
Definition report_lines (method what : string) (err : exn) (dbg : bool)
    : list event :=
  (if dbg then [EvPrintExc err] else []) ++
  [EvPrint ((match exn_kind err with
             | StructError => "[STRUCT ERROR] (Socket."
             | SocketError => "[SOCKET ERROR] (Socket."
             | OtherException => "[ERROR] (Socket."
             end) ++ method ++ ") could not " ++ what ++ " data, reason: "
            ++ exn_msg err)%string].

(** ** Scenarios *)

(** A message of five bytes of which two were sent before the peer closed. *)
Definition truncated_stream : Net :=
  mkNet [x00; x00; x00; x05; x61; x62] 1024 true true 5.

(** 2^32 zero bytes: one more than the prefix can count. *)
Definition oversized : bytes := repeat x00 (Z.to_nat 4294967296).

(** ** A listening host

    A host on which a server listens: the connections waiting in the
    backlog of the port, each with the descriptor [accept] will give it and
    its remote address.  [bind] fails when the port is taken.  The wait of
    the accept loop finds the next waiting connection; once the backlog is
    empty it finds nothing, or is interrupted from the keyboard when
    [ctrl_c] is set. *)
Record Lan := mkLan {
  backlog : list (handle * (string * Z));
  ctrl_c : bool;
  port_free : bool;
  lan_next_fd : handle
}.

Definition lan_socket (w : Lan) : outcome handle * Lan :=
  (Done (lan_next_fd w),
   mkLan (backlog w) (ctrl_c w) (port_free w) (lan_next_fd w + 1)).

Definition lan_bind (h : handle) (address : string) (port : Z) (w : Lan)
    : outcome unit * Lan :=
  if port_free w then (Done tt, mkLan (backlog w) (ctrl_c w) false (lan_next_fd w))
  else (Failed (Exn SocketError "[Errno 98] Address already in use"), w).

Definition lan_poll (h : handle) (w : Lan) : poll * Lan :=
  match backlog w with
  | _ :: _ => (PollReady, w)
  | [] => (if ctrl_c w then PollInterrupt else PollEmpty, w)
  end.

Definition lan_accept (h : handle) (w : Lan)
    : outcome (handle * (string * Z)) * Lan :=
  match backlog w with
  | c :: rest => (Done c, mkLan rest (ctrl_c w) (port_free w) (lan_next_fd w))
  | [] => (Failed (Exn SocketError "[Errno 11] Resource temporarily unavailable"), w)
  end.

#[export] Instance Lan_platform : Platform Lan := {
  os_socket := lan_socket;
  os_settimeout := fun _ _ w => (Done tt, w);
  os_connect := fun _ _ _ w => (Failed (Exn SocketError "[Errno 111] Connection refused"), w);
  os_select := fun _ _ w => (Done false, w);
  os_recv := fun _ _ w => (Failed (Exn SocketError "timed out"), w);
  os_send := fun _ buf w => (Done (len buf), w);
  os_shutdown := fun _ w => (Done tt, w);
  os_close := fun _ w => (Done tt, w);
  os_bind := lan_bind;
  os_listen := fun _ w => (Done tt, w);
  os_poll := lan_poll;
  os_accept := lan_accept
}.

(** ** Further observations on runs *)

(** The bytes the [send] calls of a trace took, in order: of each buffer,
    as many bytes as the call returned. *)
Fixpoint accepted (t : list event) : bytes :=
  match t with
  | [] => []
  | EvSend _ buf (Done n) :: t' => firstn (Z.to_nat n) buf ++ accepted t'
  | _ :: t' => accepted t'
  end.

(** The threads a trace started, in order. *)
Fixpoint started (t : list event) : list task :=
  match t with
  | [] => []
  | EvThread tk :: t' => tk :: started t'
  | _ :: t' => started t'
  end.

(** The connections the [accept] calls of a trace returned, in order. *)
Fixpoint connections (t : list event) : list (handle * (string * Z)) :=
  match t with
  | [] => []
  | EvAccept _ (Done c) :: t' => c :: connections t'
  | _ :: t' => connections t'
  end.

(** The thread the accept loop starts for a connection:
    [Thread(target=callback, args=(addr, Socket(sock, debug=self.debug)))]. *)
Definition handler_thread (cb : callback) (dbg : bool)
    (c : handle * (string * Z)) : task :=
  TaskCallback cb (snd c) (Socket_init (Some (fst c)) 60 dbg).

(** One turn of the accept loop: the [try] block of [__listen] with its
    two [except] clauses. *)
Definition guarded_turn {W : Type} {os : Platform W} (cb : callback)
    : M W ServerBase unit :=
  try_except
    (try_interrupt (listen_turn cb) (modify_self (set_running false)))
    (fun err =>
       self <- get_self ;;
       (if server_debug self then print_exc err else ret tt) ;;
       if running self
       then print ("[ERROR] (ServerBase.__listen): " ++ exn_msg err)%string
       else ret tt).

(** * Properties *)

(** ** Unfolding lemmas for the loops *)

Section LoopEquations.

Context {W : Type} {os : Platform W}.

Lemma read_loop_eq (fuel : nat) (s : handle) (ml dl : Z) (fr : list bytes) :
  read_loop fuel s ml dl fr =
  if dl <? ml then
    match fuel with
    | O => out_of_fuel
    | S fuel' =>
        buffer <- syscall (os_recv s (ml - dl)) (EvRecv s (ml - dl)) ;;
        read_loop fuel' s ml (dl + len buffer) (fr ++ [buffer])
    end
  else ret fr.
Proof. destruct fuel; reflexivity. Qed.

Lemma write_loop_eq (fuel : nat) (s : handle) (data : bytes) (length sent : Z) :
  write_loop fuel s data length sent =
  if sent <? length then
    match fuel with
    | O => out_of_fuel
    | S fuel' =>
        n <- syscall (os_send s (slice_from data sent))
                     (EvSend s (slice_from data sent)) ;;
        write_loop fuel' s data length (sent + n)
    end
  else ret tt.
Proof. destruct fuel; reflexivity. Qed.

End LoopEquations.

(** One step of a run: the combinators give way to the platform call the
    run is waiting for. *)
Ltac run_step :=
  unfold lift, print, print_exc, bind, ret, raise, try_except, try_finally,
    try_interrupt, get_self, modify_self, emit, syscall, out_of_fuel;
  cbn [after finally_result res obj world trace fst snd negb app].

Section After.

Context {W O A : Type}.

Lemma res_after (t : list event) (r : run W O A) : res (after t r) = res r.
Proof. destruct r; reflexivity. Qed.

Lemma obj_after (t : list event) (r : run W O A) : obj (after t r) = obj r.
Proof. destruct r; reflexivity. Qed.

Lemma world_after (t : list event) (r : run W O A) : world (after t r) = world r.
Proof. destruct r; reflexivity. Qed.

Lemma trace_after (t : list event) (r : run W O A) :
  trace (after t r) = t ++ trace r.
Proof. destruct r; reflexivity. Qed.

End After.

(** ** What the except clauses do *)

Section ExceptClauses.

Context {W : Type} {os : Platform W}.

Lemma report_run (method what : string) (err : exn) (self : Socket) (w : W) :
  report method what err self w =
  mkRun (Ok tt) self w (report_lines method what err (debug self)).
Proof.
  unfold report, debug_trace, report_lines. run_step.
  destruct (debug self); run_step; destruct (exn_kind err); reflexivity.
Qed.

Lemma read_except_run (err : exn) (self : Socket) (w : W) :
  read_except err self w =
  mkRun (Ok (false, SOCK_ERROR)) self w
        (report_lines "read" "receive" err (debug self)).
Proof.
  unfold read_except. unfold bind. rewrite report_run. run_step.
  now rewrite app_nil_r.
Qed.

Lemma write_except_run (err : exn) (self : Socket) (w : W) :
  write_except err self w =
  mkRun (Ok false) self w (report_lines "write" "send" err (debug self)).
Proof.
  unfold write_except. unfold bind. rewrite report_run. run_step.
  now rewrite app_nil_r.
Qed.

Lemma connect_except_run (err : exn) (self : Socket) (w : W) :
  connect_except err self w =
  mkRun (Ok false) self w
    ((if debug self then [EvPrintExc err] else []) ++
     [EvPrint ("[SOCKET ERROR] (Socket.connect) could not connect, reason: "
               ++ exn_msg err)%string]).
Proof.
  unfold connect_except, debug_trace. run_step.
  destruct (debug self); reflexivity.
Qed.

(** An [except] clause prints; it makes no platform call. *)
Lemma report_lines_console (method what : string) (err : exn) (dbg : bool)
    (ev : event) :
  In ev (report_lines method what err dbg) ->
  (exists line, ev = EvPrint line) \/ ev = EvPrintExc err.
Proof.
  unfold report_lines. destruct dbg; cbn; intros H;
    repeat (destruct H as [H | H]; [subst ev; eauto |]); contradiction.
Qed.

End ExceptClauses.

(** ** The length prefix *)

Lemma Z_of_byte_of_Z (z : Z) : Z_of_byte (byte_of_Z z) = z mod 256.
Proof.
  unfold Z_of_byte, byte_of_Z.
  assert (Hr : 0 <= z mod 256 < 256) by (apply Z.mod_pos_bound; lia).
  destruct (Byte.of_N (Z.to_N (z mod 256))) as [b |] eqn:Hb.
  - apply Byte.to_of_N in Hb. rewrite Hb. lia.
  - apply Byte.of_N_None_iff in Hb. lia.
Qed.

Lemma Z_of_byte_range (b : byte) : 0 <= Z_of_byte b < 256.
Proof.
  unfold Z_of_byte. pose proof (Byte.to_N_bounded b). lia.
Qed.

(** The four bytes of a 32-bit number, most significant first, put back
    together. *)
Lemma be32_bits (n : Z) :
  0 <= n <= 4294967295 ->
  Z.lor (Z.shiftl (Z.shiftr n 24 mod 256) 24)
    (Z.lor (Z.shiftl (Z.shiftr n 16 mod 256) 16)
       (Z.lor (Z.shiftl (Z.shiftr n 8 mod 256) 8) (n mod 256))) = n.
Proof.
  intros Hn. apply Z.bits_inj'. intros i Hi.
  rewrite !Z.lor_spec, !Z.shiftl_spec by lia.
  change 256 with (2 ^ 8).
  assert (Hhigh : 32 <= i -> Z.testbit n i = false).
  { intros Hge. destruct (Z.eq_dec n 0) as [-> | Hnz]; [apply Z.bits_0 |].
    apply Z.bits_above_log2; [lia |].
    apply Z.log2_lt_pow2; [lia |].
    assert (2 ^ 32 <= 2 ^ i) by (apply Z.pow_le_mono_r; lia).
    change (2 ^ 32) with 4294967296 in *. lia. }
  destruct (Z_lt_dec i 8); [| destruct (Z_lt_dec i 16);
    [| destruct (Z_lt_dec i 24); [| destruct (Z_lt_dec i 32)]]].
  - rewrite (Z.testbit_neg_r _ (i - 24)), (Z.testbit_neg_r _ (i - 16)),
      (Z.testbit_neg_r _ (i - 8)) by lia.
    rewrite Z.mod_pow2_bits_low by lia. reflexivity.
  - rewrite (Z.testbit_neg_r _ (i - 24)), (Z.testbit_neg_r _ (i - 16)) by lia.
    rewrite Z.mod_pow2_bits_low, (Z.mod_pow2_bits_high n) by lia.
    rewrite Z.shiftr_spec by lia. rewrite orb_false_r. cbn [orb]. f_equal. lia.
  - rewrite (Z.testbit_neg_r _ (i - 24)) by lia.
    rewrite (Z.mod_pow2_bits_high _ 8 (i - 8)), (Z.mod_pow2_bits_high n) by lia.
    rewrite Z.mod_pow2_bits_low by lia.
    rewrite Z.shiftr_spec by lia. rewrite !orb_false_r. cbn [orb]. f_equal. lia.
  - rewrite (Z.mod_pow2_bits_high _ 8 (i - 8)), (Z.mod_pow2_bits_high _ 8 (i - 16)),
      (Z.mod_pow2_bits_high n) by lia.
    rewrite Z.mod_pow2_bits_low by lia.
    rewrite Z.shiftr_spec by lia. rewrite !orb_false_r. f_equal. lia.
  - rewrite (Z.mod_pow2_bits_high _ 8 (i - 8)), (Z.mod_pow2_bits_high _ 8 (i - 16)),
      (Z.mod_pow2_bits_high _ 8 (i - 24)), (Z.mod_pow2_bits_high n) by lia.
    rewrite Hhigh by lia. reflexivity.
Qed.

(** [unpack(">I", pack(">I", n))[0] == n] *)
Lemma unpack_pack (n : Z) (b : bytes) :
  pack_I n = inr b -> unpack_I b = inr n /\ len b = 4.
Proof.
  unfold pack_I. destruct (0 <=? n) eqn:H0; destruct (n <=? 4294967295) eqn:H1;
    cbn [andb]; try discriminate.
  intros H. injection H as <-. split; [| reflexivity].
  cbn [unpack_I]. rewrite !Z_of_byte_of_Z. f_equal.
  apply be32_bits. apply Z.leb_le in H0. apply Z.leb_le in H1. lia.
Qed.

Lemma lor_below_pow2 (a b k : Z) :
  0 <= a < 2 ^ k -> 0 <= b < 2 ^ k -> 0 <= Z.lor a b < 2 ^ k.
Proof.
  intros Ha Hb.
  assert (Hk : 0 <= k).
  { destruct (Z_lt_dec k 0) as [Hneg |]; [| lia].
    rewrite Z.pow_neg_r in Ha by lia. lia. }
  assert (Hnn : 0 <= Z.lor a b) by (apply Z.lor_nonneg; lia).
  split; [assumption |].
  destruct (Z.eq_dec (Z.lor a b) 0) as [-> | Hnz]; [lia |].
  apply Z.log2_lt_pow2; [lia |].
  rewrite Z.log2_lor by lia.
  assert (Hlog : forall x, 0 <= x < 2 ^ k -> Z.log2 x < k \/ x = 0).
  { intros x Hx. destruct (Z.eq_dec x 0); [now right | left].
    apply Z.log2_lt_pow2; lia. }
  pose proof (Z.log2_nonneg a). pose proof (Z.log2_nonneg b).
  destruct (Hlog a Ha) as [Hla | Ha0], (Hlog b Hb) as [Hlb | Hb0]; subst;
    rewrite ?Z.lor_0_l, ?Z.lor_0_r in Hnz;
    change (Z.log2 0) with 0 in *; lia.
Qed.

(** What [unpack] returns fits the prefix. *)
Lemma unpack_range (b : bytes) (n : Z) :
  unpack_I b = inr n -> 0 <= n <= 4294967295.
Proof.
  destruct b as [| b3 [| b2 [| b1 [| b0 [| x rest]]]]]; cbn [unpack_I];
    try discriminate.
  set (v := Z.lor _ _). intros Hv. injection Hv as <-. subst v.
  pose proof (Z_of_byte_range b3) as H. pose proof (Z_of_byte_range b2) as H0.
  pose proof (Z_of_byte_range b1) as H1. pose proof (Z_of_byte_range b0) as H2.
  assert (Hs : forall x k, 0 <= x < 256 -> 0 <= k <= 24 ->
                           0 <= Z.shiftl x k < 2 ^ 32).
  { intros x k Hx Hk. rewrite Z.shiftl_mul_pow2 by lia.
    assert (0 < 2 ^ k) by (apply Z.pow_pos_nonneg; lia).
    assert (2 ^ k <= 2 ^ 24) by (apply Z.pow_le_mono_r; lia).
    assert (0 <= x * 2 ^ k) by (apply Z.mul_nonneg_nonneg; lia).
    assert (x * 2 ^ k <= 255 * 2 ^ k) by (apply Z.mul_le_mono_nonneg_r; lia).
    change (2 ^ 24) with 16777216 in *. change (2 ^ 32) with 4294967296.
    lia. }
  assert (Hb0 : 0 <= Z_of_byte b0 < 2 ^ 32) by (change (2 ^ 32) with 4294967296; lia).
  pose proof (lor_below_pow2 _ _ 32 (Hs _ 8 H1 ltac:(lia)) Hb0) as H01.
  pose proof (lor_below_pow2 _ _ 32 (Hs _ 16 H0 ltac:(lia)) H01) as H012.
  pose proof (lor_below_pow2 _ _ 32 (Hs _ 24 H ltac:(lia)) H012) as H0123.
  change (2 ^ 32) with 4294967296 in H0123. lia.
Qed.

(** ** Frame reasoning: computations that leave the object alone *)

Section Frame.

Context {W : Type} {os : Platform W} {O : Type}.

Lemma quiet_ret {A} (a : A) : quiet (@ret W O A a).
Proof. intros o w. split; reflexivity. Qed.

Lemma quiet_raise {A} (e : exn) : quiet (@raise W O A e).
Proof. intros o w. split; reflexivity. Qed.

Lemma quiet_out_of_fuel {A} : quiet (@out_of_fuel W O A).
Proof. intros o w. split; reflexivity. Qed.

Lemma quiet_get_self : quiet (@get_self W O).
Proof. intros o w. split; reflexivity. Qed.

Lemma quiet_lift {A} (r : exn + A) : quiet (@lift W O A r).
Proof. destruct r; [apply quiet_raise | apply quiet_ret]. Qed.

Lemma quiet_emit (ev : event) :
  releases_handle ev = false -> quiet (@emit W O ev).
Proof. intros H o w. split; [reflexivity | cbn; now rewrite H]. Qed.

Lemma quiet_print (line : string) : quiet (@print W O line).
Proof. now apply quiet_emit. Qed.

Lemma quiet_print_exc (e : exn) : quiet (@print_exc W O e).
Proof. now apply quiet_emit. Qed.

Lemma quiet_syscall {A} (f : W -> outcome A * W) (ev : outcome A -> event) :
  (forall r, releases_handle (ev r) = false) -> quiet (@syscall W O A f ev).
Proof.
  intros H o w. unfold syscall. destruct (f w) as [r w']. cbn.
  split; [reflexivity | now rewrite H].
Qed.

Lemma quiet_after {A} (t : list event) (r : run W O A) (o : O) :
  existsb releases_handle t = false ->
  obj r = o -> existsb releases_handle (trace r) = false ->
  obj (after t r) = o /\ existsb releases_handle (trace (after t r)) = false.
Proof.
  intros Ht Ho Hr. destruct r as [x o' w' t']. cbn in *.
  split; [assumption | now rewrite existsb_app, Ht, Hr].
Qed.

Lemma quiet_bind {A B} (c : M W O A) (k : A -> M W O B) :
  quiet c -> (forall a, quiet (k a)) -> quiet (bind c k).
Proof.
  intros Hc Hk o w. unfold bind.
  destruct (Hc o w) as [Ho Ht].
  destruct (c o w) as [[a | e | |] o1 w1 t1]; cbn in Ho, Ht;
    try (split; assumption).
  destruct (Hk a o1 w1) as [Ho' Ht'].
  apply quiet_after; congruence.
Qed.

Lemma quiet_try_except {A} (c : M W O A) (handler : exn -> M W O A) :
  quiet c -> (forall e, quiet (handler e)) -> quiet (try_except c handler).
Proof.
  intros Hc Hh o w. unfold try_except.
  destruct (Hc o w) as [Ho Ht].
  destruct (c o w) as [[a | e | |] o1 w1 t1]; cbn in Ho, Ht;
    try (split; assumption).
  destruct (Hh e o1 w1) as [Ho' Ht'].
  apply quiet_after; congruence.
Qed.

End Frame.

Create HintDb frame.
#[export] Hint Resolve quiet_ret quiet_raise quiet_out_of_fuel quiet_get_self
  quiet_lift quiet_print quiet_print_exc : frame.

Section SocketFrame.

Context {W : Type} {os : Platform W}.

Lemma quiet_debug_trace (err : exn) : quiet (@debug_trace W err).
Proof.
  unfold debug_trace. apply quiet_bind; auto with frame.
  intros self. destruct (debug self); auto with frame.
Qed.

Lemma quiet_report (method what : string) (err : exn) :
  quiet (@report W method what err).
Proof.
  unfold report. apply quiet_bind; [apply quiet_debug_trace |].
  intros _. destruct (exn_kind err); auto with frame.
Qed.

Lemma quiet_read_loop (fuel : nat) (s : handle) (ml : Z) :
  forall (dl : Z) (fr : list bytes), quiet (read_loop fuel s ml dl fr).
Proof.
  induction fuel as [| fuel IH]; intros dl fr; rewrite read_loop_eq;
    destruct (dl <? ml); auto with frame.
  apply quiet_bind; [now apply quiet_syscall | intros buffer; apply IH].
Qed.

Lemma quiet_write_loop (fuel : nat) (s : handle) (data : bytes) (length : Z) :
  forall sent : Z, quiet (write_loop fuel s data length sent).
Proof.
  induction fuel as [| fuel IH]; intros sent; rewrite write_loop_eq;
    destruct (sent <? length); auto with frame.
  apply quiet_bind; [now apply quiet_syscall | intros n; apply IH].
Qed.

Lemma quiet_read (fuel : nat) (timeout_override : Z) :
  quiet (read fuel timeout_override).
Proof.
  unfold read. apply quiet_bind; auto with frame. intros self.
  destruct (sock self) as [s |].
  - apply quiet_try_except.
    + apply quiet_bind; [now apply quiet_syscall |]. intros readable.
      destruct readable; cbn [negb]; auto with frame.
      apply quiet_bind; [now apply quiet_syscall |]. intros header.
      apply quiet_bind; auto with frame. intros message_length.
      apply quiet_bind; [apply quiet_read_loop | auto with frame].
    + intros err. apply quiet_bind; [apply quiet_report | auto with frame].
  - apply quiet_bind; auto with frame.
Qed.

Lemma quiet_write (fuel : nat) (data : pydata) : quiet (write fuel data).
Proof.
  unfold write. apply quiet_bind; auto with frame. intros self.
  destruct (sock self) as [s |].
  - apply quiet_bind; auto with frame. intros b.
    apply quiet_try_except.
    + apply quiet_bind; auto with frame. intros prefix.
      apply quiet_bind; [apply quiet_write_loop | auto with frame].
    + intros err. apply quiet_bind; [apply quiet_report | auto with frame].
  - apply quiet_bind; auto with frame.
Qed.

End SocketFrame.

(** C8.  Every [read] and every [write] call, failing or not, hands back the
    [Socket] object exactly as it received it, so [self.__sock] is what it
    was, and makes no platform call that creates, shuts down or closes a
    socket: after a failed call a connected object still owns its open
    socket and the caller still has to [disconnect]. *)
Theorem read_write_keep_handle :
  forall (W : Type) (os : Platform W) (fuel : nat) (timeout_override : Z)
         (data : pydata) (self : Socket) (w : W),
    (obj (read fuel timeout_override self w) = self /\
     sock (obj (read fuel timeout_override self w)) = sock self /\
     existsb releases_handle (trace (read fuel timeout_override self w)) = false)
    /\
    (obj (write fuel data self w) = self /\
     sock (obj (write fuel data self w)) = sock self /\
     existsb releases_handle (trace (write fuel data self w)) = false).
Proof.
  intros W os fuel t data self w.
  destruct (quiet_read fuel t self w) as [Hr Hrt].
  destruct (quiet_write fuel data self w) as [Hw Hwt].
  repeat split; try assumption; congruence.
Qed.

(** ** Socket.connect *)

Section ConnectFailure.

Context {W : Type} {os : Platform W}.

(** Once [socket()] has answered, the new raw socket is stored in
    [self.__sock]; no failure of [settimeout] or [connect] takes it out
    again. *)
Lemma connect_stores_socket (host : string) (port : Z) (self : Socket) (w w1 : W)
    (s : handle) :
  sock self = None ->
  os_socket w = (Done s, w1) ->
  sock (obj (connect host port self w)) = Some s.
Proof.
  intros Hs Hsock. unfold connect. run_step. rewrite Hs, Hsock. run_step.
  destruct (os_settimeout s (timeout self) w1) as [[[] | e1] w2]; run_step;
    [destruct (os_connect s host port w2) as [[[] | e2] w3]; run_step |];
    try rewrite connect_except_run; reflexivity.
Qed.

(** With [self.__sock] set, [connect] refuses at its first line, without a
    platform call. *)
Lemma connect_refuses_when_set (host : string) (port : Z) (self : Socket) (w : W)
    (s : handle) :
  sock self = Some s ->
  connect host port self w =
  mkRun (Ok false) self w
    [EvPrint "[ERROR] (Socket.connect) could not connect, reason: socket already connected"].
Proof.
  intros Hs. unfold connect. run_step. rewrite Hs. reflexivity.
Qed.

End ConnectFailure.

(** C3.  A fresh object connects to a host where nothing listens:
    [connect] returns [False], yet [self.__sock] now holds the raw socket
    that was created.  When the host has come up, a second [connect] on the
    same object returns [False] again with "socket already connected" and
    makes no platform call. *)
Theorem failed_connect_keeps_handle :
  forall (t : Z) (d : bool) (m : Z) (fd : handle) (host : string) (port : Z),
    let first := connect host port (mkSocket t d None) (mkNet [] m false false fd) in
    let second := connect host port (obj first) (mkNet [] m false true (fd + 1)) in
    res first = Ok false /\
    sock (obj first) = Some fd /\
    res second = Ok false /\
    trace second =
      [EvPrint "[ERROR] (Socket.connect) could not connect, reason: socket already connected"] /\
    res (connect host port (mkSocket t d None) (mkNet [] m false true (fd + 1)))
      = Ok true.
Proof.
  intros. subst first second.
  unfold connect. run_step. cbn [sock os_socket Net_platform net_socket].
  run_step. cbn [next_fd os_settimeout os_connect Net_platform net_connect reachable].
  run_step. rewrite connect_except_run. run_step.
  repeat split; reflexivity.
Qed.

(** ** Socket.read: the failure returns *)

Section ReadFailures.

Context {W : Type} {os : Platform W}.

(** A [recv] that raises ends the loop of [read] with that exception. *)
Lemma read_loop_recv_failed (fuel : nat) (s : handle) (ml : Z) :
  forall (dl : Z) (fr : list bytes) (self : Socket) (w : W)
         (s' : handle) (n : Z) (e : exn),
    In (EvRecv s' n (Failed e)) (trace (read_loop fuel s ml dl fr self w)) ->
    exists e', res (read_loop fuel s ml dl fr self w) = Raise e'.
Proof.
  induction fuel as [| fuel IH]; intros dl fr self w s' n e;
    rewrite read_loop_eq; destruct (dl <? ml); run_step;
    try (intros []).
  destruct (os_recv s (ml - dl) w) as [[buffer | e0] w1]; run_step.
  - rewrite trace_after, res_after. intros [H | H]; [discriminate |].
    eapply IH; eauto.
  - intros _. eauto.
Qed.

(** The loop of [read] is never interrupted: no call in it can be. *)
Lemma read_loop_not_interrupted (fuel : nat) (s : handle) (ml : Z) :
  forall (dl : Z) (fr : list bytes) (self : Socket) (w : W),
    res (read_loop fuel s ml dl fr self w) <> Interrupted.
Proof.
  induction fuel as [| fuel IH]; intros dl fr self w;
    rewrite read_loop_eq; destruct (dl <? ml); run_step; try discriminate.
  destruct (os_recv s (ml - dl) w) as [[buffer | e0] w1]; run_step;
    [rewrite res_after; apply IH | discriminate].
Qed.

Lemma read_not_connected (fuel : nat) (t : Z) (self : Socket) (w : W) :
  sock self = None ->
  read fuel t self w =
  mkRun (Ok (false, SOCK_TIMEOUT)) self w
    [EvPrint "[ERROR] (Socket.read) could not receive data, reason: socket is not connected"].
Proof.
  intros Hs. unfold read. run_step. rewrite Hs. reflexivity.
Qed.

Lemma read_not_readable (fuel : nat) (t : Z) (self : Socket) (w w1 : W)
    (s : handle) :
  sock self = Some s ->
  os_select s (if negb (t =? 0) then t else timeout self) w = (Done false, w1) ->
  read fuel t self w =
  mkRun (Ok (false, SOCK_TIMEOUT)) self w1
    [EvSelect s (if negb (t =? 0) then t else timeout self) (Done false)].
Proof.
  intros Hs Hsel. unfold read. run_step. rewrite Hs, Hsel. run_step.
  reflexivity.
Qed.

(** A message of one byte that arrives whole is returned with [True],
    whatever the byte. *)
Lemma read_one_byte (fuel : nat) (t : Z) (self : Socket) (w w1 w2 w3 : W)
    (s : handle) (header : bytes) (x : byte) :
  sock self = Some s ->
  os_select s (if negb (t =? 0) then t else timeout self) w = (Done true, w1) ->
  os_recv s 4 w1 = (Done header, w2) ->
  unpack_I header = inr 1 ->
  os_recv s 1 w2 = (Done [x], w3) ->
  res (read (S fuel) t self w) = Ok (true, [x]).
Proof.
  intros Hs Hsel Hrecv Hunpack Hbyte. unfold read. run_step.
  rewrite Hs, Hsel. run_step. rewrite Hrecv. run_step.
  rewrite Hunpack. run_step.
  rewrite read_loop_eq. cbn [Z.ltb Z.compare]. run_step.
  change (1 - 0) with 1. rewrite Hbyte. run_step.
  rewrite read_loop_eq. unfold len. cbn [List.length Z.of_nat Pos.of_succ_nat
    Z.add Z.ltb Z.compare Pos.compare Pos.compare_cont app]. run_step.
  reflexivity.
Qed.

Lemma read_bad_header (fuel : nat) (t : Z) (self : Socket) (w w1 w2 : W)
    (s : handle) (header : bytes) :
  sock self = Some s ->
  os_select s (if negb (t =? 0) then t else timeout self) w = (Done true, w1) ->
  os_recv s 4 w1 = (Done header, w2) ->
  len header <> 4 ->
  res (read fuel t self w) = Ok (false, SOCK_ERROR).
Proof.
  intros Hs Hsel Hrecv Hlen. unfold read. run_step.
  rewrite Hs, Hsel. run_step. rewrite Hrecv. run_step.
  destruct header as [| b3 [| b2 [| b1 [| b0 [| b rest]]]]];
    cbn [unpack_I]; run_step; try rewrite read_except_run;
    try reflexivity.
  exfalso. apply Hlen. reflexivity.
Qed.

Lemma read_recv_failed (fuel : nat) (t : Z) (self : Socket) (w : W)
    (s : handle) (n : Z) (e : exn) :
  In (EvRecv s n (Failed e)) (trace (read fuel t self w)) ->
  res (read fuel t self w) = Ok (false, SOCK_ERROR).
Proof.
  unfold read. run_step.
  destruct (sock self) as [s0 |]; run_step;
    [| intros [H | []]; discriminate].
  destruct (os_select s0 _ w) as [[[] | e0] w1]; run_step;
    [| intros [H | []]; discriminate
     | rewrite read_except_run; reflexivity].
  destruct (os_recv s0 4 w1) as [[header | e1] w2]; run_step;
    [| rewrite read_except_run; reflexivity].
  destruct (unpack_I header) as [e2 | ml]; run_step;
    [rewrite read_except_run; reflexivity |].
  pose proof (read_loop_recv_failed fuel s0 ml 0 [] self w2 s n e) as Hloop.
  destruct (read_loop fuel s0 ml 0 [] self w2) as [[fr | e3 | |] o' w' t'];
    run_step; try (rewrite read_except_run; reflexivity);
    cbn [res trace] in Hloop;
    (intros [H | [H | H]]; [discriminate | discriminate |]);
    try rewrite app_nil_r in H;
    destruct (Hloop H) as [e' He']; discriminate.
Qed.

Lemma read_false_is_sentinel (fuel : nat) (t : Z) (self : Socket) (w : W)
    (d : bytes) :
  res (read fuel t self w) = Ok (false, d) ->
  d = SOCK_TIMEOUT \/ d = SOCK_ERROR.
Proof.
  unfold read. run_step.
  destruct (sock self) as [s0 |]; run_step;
    [| intros H; injection H as <-; now left].
  destruct (os_select s0 _ w) as [[[] | e0] w1]; run_step;
    [| intros H; injection H as <-; now left
     | rewrite read_except_run; intros H; injection H as <-; now right].
  destruct (os_recv s0 4 w1) as [[header | e1] w2]; run_step;
    [| rewrite read_except_run; intros H; injection H as <-; now right].
  destruct (unpack_I header) as [e2 | ml]; run_step;
    [rewrite read_except_run; intros H; injection H as <-; now right |].
  destruct (read_loop fuel s0 ml 0 [] self w2) as [[fr | e3 | |] o' w' t'];
    run_step; try discriminate.
  rewrite read_except_run. intros H; injection H as <-; now right.
Qed.

End ReadFailures.

(** C4, as the code has it.  Not connected: [(False, SOCK_TIMEOUT)], the
    same tuple as on a readiness timeout, when [select] reports the socket
    not readable within the timeout.  A header that [unpack] rejects, or a
    [recv] that raises: [(False, SOCK_ERROR)].  A [False] flag always comes
    with one of the two markers, which are the distinct one-byte strings
    0x00 and 0x01.  The flag, not the data, tells failure from success: a
    message of one byte that arrives whole is returned with [True] whatever
    the byte, the two markers included. *)
Theorem read_failure_sentinels :
  forall (W : Type) (os : Platform W) (fuel : nat) (t : Z) (self : Socket)
         (w : W),
    (sock self = None ->
     res (read fuel t self w) = Ok (false, SOCK_TIMEOUT)) /\
    (forall (s : handle) (w1 : W),
       sock self = Some s ->
       os_select s (if negb (t =? 0) then t else timeout self) w = (Done false, w1) ->
       res (read fuel t self w) = Ok (false, SOCK_TIMEOUT)) /\
    (forall (s : handle) (header : bytes) (w1 w2 : W),
       sock self = Some s ->
       os_select s (if negb (t =? 0) then t else timeout self) w = (Done true, w1) ->
       os_recv s 4 w1 = (Done header, w2) ->
       len header <> 4 ->
       res (read fuel t self w) = Ok (false, SOCK_ERROR)) /\
    (forall (s : handle) (n : Z) (e : exn),
       In (EvRecv s n (Failed e)) (trace (read fuel t self w)) ->
       res (read fuel t self w) = Ok (false, SOCK_ERROR)) /\
    (forall d : bytes,
       res (read fuel t self w) = Ok (false, d) ->
       d = SOCK_TIMEOUT \/ d = SOCK_ERROR) /\
    (forall (s : handle) (header : bytes) (x : byte) (w1 w2 w3 : W),
       sock self = Some s ->
       os_select s (if negb (t =? 0) then t else timeout self) w = (Done true, w1) ->
       os_recv s 4 w1 = (Done header, w2) ->
       unpack_I header = inr 1 ->
       os_recv s 1 w2 = (Done [x], w3) ->
       res (read (S fuel) t self w) = Ok (true, [x])) /\
    SOCK_TIMEOUT = [x00] /\ SOCK_ERROR = [x01] /\ SOCK_TIMEOUT <> SOCK_ERROR.
Proof.
  intros W os fuel t self w.
  split; [intros Hs; now rewrite read_not_connected |].
  split; [intros s w1 Hs Hsel; now rewrite (read_not_readable _ _ _ _ _ _ Hs Hsel) |].
  split; [intros s header w1 w2; apply read_bad_header |].
  split; [intros s n e; apply read_recv_failed |].
  split; [intros d; apply read_false_is_sentinel |].
  split; [intros s header x w1 w2 w3; apply read_one_byte |].
  repeat split. discriminate.
Qed.

(** An object that was never connected; a connected object on an idle
    stream, whose [read] times out; a stream that closed after three bytes
    of a header; a stream on which a header announcing five bytes is all
    that arrives; the marker that came with the [False] of the timed out
    [read]; and the message of the one byte 0x01, returned with [True]. *)
Lemma read_failure_sentinels_witness :
  res (read 5 0 (mkSocket 60 false None) (idle_net 1024))
    = Ok (false, SOCK_TIMEOUT) /\
  res (read 5 0 (mkSocket 60 false (Some 4)) (idle_net 1024))
    = Ok (false, SOCK_TIMEOUT) /\
  res (read 5 0 (mkSocket 60 false (Some 4))
            (mkNet [x00; x00; x01] 1024 true true 5))
    = Ok (false, SOCK_ERROR) /\
  res (read 5 0 (mkSocket 60 false (Some 4))
            (mkNet [x00; x00; x00; x05] 1024 false true 5))
    = Ok (false, SOCK_ERROR) /\
  (res (read 5 0 (mkSocket 60 false (Some 4)) (idle_net 1024))
     = Ok (false, [x00]) /\
   ([x00] = SOCK_TIMEOUT \/ [x00] = SOCK_ERROR)) /\
  res (read 5 0 (mkSocket 60 false (Some 4))
            (mkNet [x00; x00; x00; x01; x01] 1024 false true 5))
    = Ok (true, SOCK_ERROR).
Proof.
  split; [| split; [| split; [| split; [| split]]]].
  - apply (proj1 (read_failure_sentinels Net Net_platform 5 0
                    (mkSocket 60 false None) (idle_net 1024))).
    reflexivity.
  - apply (proj1 (proj2 (read_failure_sentinels Net Net_platform 5 0
                           (mkSocket 60 false (Some 4)) (idle_net 1024)))
             4 (idle_net 1024)).
    + reflexivity.
    + reflexivity.
  - apply (proj1 (proj2 (proj2 (read_failure_sentinels Net Net_platform 5 0
                                  (mkSocket 60 false (Some 4))
                                  (mkNet [x00; x00; x01] 1024 true true 5))))
             4 [x00; x00; x01]
             (mkNet [x00; x00; x01] 1024 true true 5)
             (mkNet [] 1024 true true 5)).
    + reflexivity.
    + reflexivity.
    + reflexivity.
    + discriminate.
  - apply (proj1 (proj2 (proj2 (proj2
             (read_failure_sentinels Net Net_platform 5 0
                (mkSocket 60 false (Some 4))
                (mkNet [x00; x00; x00; x05] 1024 false true 5)))))
             4 5 (Exn SocketError "timed out")).
    vm_compute. right. right. left. reflexivity.
  - split; [reflexivity |].
    apply (proj1 (proj2 (proj2 (proj2 (proj2
             (read_failure_sentinels Net Net_platform 5 0
                (mkSocket 60 false (Some 4)) (idle_net 1024)))))) [x00]).
    reflexivity.
  - apply (proj1 (proj2 (proj2 (proj2 (proj2 (proj2
             (read_failure_sentinels Net Net_platform 4 0
                (mkSocket 60 false (Some 4))
                (mkNet [x00; x00; x00; x01; x01] 1024 false true 5)))))))
             4 [x00; x00; x00; x01] x01
             (mkNet [x00; x00; x00; x01; x01] 1024 false true 5)
             (mkNet [x01] 1024 false true 5)
             (mkNet [] 1024 false true 5)).
    + reflexivity.
    + reflexivity.
    + reflexivity.
    + reflexivity.
    + reflexivity.
Defined.

(** C4 as stated fails twice.  A [read] on an object that is not connected
    returns the timeout marker, not the error marker; and a received
    message of the one byte 0x01 is returned as [(True, SOCK_ERROR)]. *)
Lemma read_sentinel_counterexample :
  res (read 5 0 (mkSocket 60 false None) (idle_net 1024))
    <> Ok (false, SOCK_ERROR) /\
  res (read 5 0 (mkSocket 60 false (Some 4))
            (mkNet [x00; x00; x00; x01; x01] 1024 false true 5))
    = Ok (true, SOCK_ERROR).
Proof. split; [discriminate | reflexivity]. Qed.

(** ** Socket.read: what a successful read returns *)

Lemma len_app {A : Type} (l1 l2 : list A) : len (l1 ++ l2) = len l1 + len l2.
Proof. unfold len. rewrite length_app. lia. Qed.

Lemma len_nonneg {A : Type} (l : list A) : 0 <= len l.
Proof. unfold len. lia. Qed.

Lemma received_app (t1 t2 : list event) :
  received (t1 ++ t2) = received t1 ++ received t2.
Proof.
  induction t1 as [| ev t1 IH]; [reflexivity |].
  destruct ev; cbn [received app]; try assumption.
  destruct r; [rewrite IH, app_assoc; reflexivity | assumption].
Qed.

Lemma received_report_lines (method what : string) (err : exn) (dbg : bool) :
  received (report_lines method what err dbg) = [].
Proof. destruct dbg; reflexivity. Qed.

Section ReadComplete.

Context {W : Type} {os : Platform W}.

(** What the socket layer promises of [recv(n)]: at most [n] bytes. *)
Hypothesis recv_bounded :
  forall (s : handle) (n : Z) (w w' : W) (b : bytes),
    os_recv s n w = (Done b, w') -> 0 <= n -> len b <= n.

(** When the loop of [read] ends normally, the fragments hold exactly
    [message_length] bytes: the ones it started with and the ones its
    [recv] calls returned, in order. *)
Lemma read_loop_complete (fuel : nat) (s : handle) (ml : Z) :
  forall (dl : Z) (fr frs : list bytes) (self : Socket) (w : W),
    dl = len (List.concat fr) -> dl <= ml ->
    res (read_loop fuel s ml dl fr self w) = Ok frs ->
    len (List.concat frs) = ml /\
    List.concat frs =
      List.concat fr ++ received (trace (read_loop fuel s ml dl fr self w)).
Proof.
  induction fuel as [| fuel IH]; intros dl fr frs self w Hdl Hle;
    rewrite read_loop_eq; destruct (dl <? ml) eqn:E; run_step;
    try discriminate.
  - intros H. injection H as <-. apply Z.ltb_ge in E.
    rewrite app_nil_r. split; [lia | reflexivity].
  - apply Z.ltb_lt in E.
    destruct (os_recv s (ml - dl) w) as [[buffer | e0] w1] eqn:Hrecv;
      run_step; [| discriminate].
    rewrite res_after, trace_after. intros Hres.
    pose proof (recv_bounded _ _ _ _ _ Hrecv ltac:(lia)) as Hb.
    destruct (IH (dl + len buffer) (fr ++ [buffer]) frs self w1) as [Hlen Hcat];
      [| lia | assumption |].
    + rewrite concat_app, len_app. cbn [List.concat]. rewrite app_nil_r. lia.
    + split; [assumption |].
      rewrite Hcat, concat_app. cbn [List.concat received app].
      rewrite app_nil_r, app_assoc. reflexivity.
  - intros H. injection H as <-. apply Z.ltb_ge in E.
    rewrite app_nil_r. split; [lia | reflexivity].
Qed.

(** No partial message is returned as a success: when [read] returns
    [(True, payload)], a four-byte header was received that decodes to the
    length of [payload], and header and payload together are the bytes the
    [recv] calls returned, in order. *)
Lemma read_success_complete (fuel : nat) (t : Z) (self : Socket) (w : W)
    (payload : bytes) :
  res (read fuel t self w) = Ok (true, payload) ->
  exists header : bytes,
    unpack_I header = inr (len payload) /\
    received (trace (read fuel t self w)) = header ++ payload.
Proof.
  unfold read. run_step.
  destruct (sock self) as [s0 |]; run_step; [| discriminate].
  destruct (os_select s0 _ w) as [[[] | e0] w1]; run_step;
    [| discriminate | rewrite read_except_run; discriminate].
  destruct (os_recv s0 4 w1) as [[header | e1] w2]; run_step;
    [| rewrite read_except_run; discriminate].
  destruct (unpack_I header) as [e2 | ml] eqn:Hunpack; run_step;
    [rewrite read_except_run; discriminate |].
  pose proof (fun frs => read_loop_complete fuel s0 ml 0 [] frs self w2 eq_refl)
    as Hloop.
  destruct (read_loop fuel s0 ml 0 [] self w2) as [[fr | e3 | |] o' w' t'];
    run_step; try discriminate; [| rewrite read_except_run; discriminate].
  intros H. injection H as <-.
  destruct (Hloop fr) as [Hlen Hcat];
    [apply unpack_range in Hunpack; lia | reflexivity |].
  cbn [trace List.concat app] in Hcat.
  exists header. split; [now rewrite Hlen |].
  cbn [received]. rewrite app_nil_r, Hcat. reflexivity.
Qed.

(** What the socket layer promises of [recv(n)] on a connection that is
    still open: at least one byte. *)
Hypothesis recv_progress :
  forall (s : handle) (n : Z) (w w' : W) (b : bytes),
    os_recv s n w = (Done b, w') -> 0 < n -> 0 < len b.

Lemma read_loop_returns (fuel : nat) (s : handle) (ml : Z) :
  forall (dl : Z) (fr : list bytes) (self : Socket) (w : W),
    ml - dl <= Z.of_nat fuel ->
    res (read_loop fuel s ml dl fr self w) <> OutOfFuel.
Proof.
  induction fuel as [| fuel IH]; intros dl fr self w Hfuel;
    rewrite read_loop_eq; destruct (dl <? ml) eqn:E; run_step;
    try discriminate.
  - apply Z.ltb_lt in E. lia.
  - apply Z.ltb_lt in E.
    destruct (os_recv s (ml - dl) w) as [[buffer | e0] w1] eqn:Hrecv;
      run_step; [| discriminate].
    rewrite res_after. apply IH.
    pose proof (recv_progress _ _ _ _ _ Hrecv ltac:(lia)). lia.
Qed.

(** On such a connection, with fuel for the longest message the prefix can
    announce, [read] returns: the complete message, or one of the two
    failure tuples. *)
Lemma read_returns (fuel : nat) (t : Z) (self : Socket) (w : W) :
  4294967295 <= Z.of_nat fuel ->
  (exists header payload : bytes,
     res (read fuel t self w) = Ok (true, payload) /\
     unpack_I header = inr (len payload) /\
     received (trace (read fuel t self w)) = header ++ payload) \/
  res (read fuel t self w) = Ok (false, SOCK_TIMEOUT) \/
  res (read fuel t self w) = Ok (false, SOCK_ERROR).
Proof.
  intros Hfuel.
  destruct (res (read fuel t self w)) as [[[] payload] | e | |] eqn:Hres.
  - left. destruct (read_success_complete fuel t self w payload Hres)
      as [header [Hh Hr]].
    exists header, payload. auto.
  - right. destruct (read_false_is_sentinel fuel t self w payload Hres)
      as [-> | ->]; auto.
  - exfalso. revert Hres. unfold read. run_step.
    destruct (sock self) as [s0 |]; run_step; [| discriminate].
    destruct (os_select s0 _ w) as [[[] | e0] w1]; run_step;
      [| discriminate | rewrite read_except_run; discriminate].
    destruct (os_recv s0 4 w1) as [[header | e1] w2]; run_step;
      [| rewrite read_except_run; discriminate].
    destruct (unpack_I header) as [e2 | ml]; run_step;
      [rewrite read_except_run; discriminate |].
    destruct (read_loop fuel s0 ml 0 [] self w2) as [[fr | e3 | |] o' w' t'];
      run_step; try discriminate.
    rewrite read_except_run; discriminate.
  - exfalso. revert Hres. unfold read. run_step.
    destruct (sock self) as [s0 |]; run_step; [| discriminate].
    destruct (os_select s0 _ w) as [[[] | e0] w1]; run_step;
      [| discriminate | rewrite read_except_run; discriminate].
    destruct (os_recv s0 4 w1) as [[header | e1] w2]; run_step;
      [| rewrite read_except_run; discriminate].
    destruct (unpack_I header) as [e2 | ml]; run_step;
      [rewrite read_except_run; discriminate |].
    pose proof (read_loop_not_interrupted fuel s0 ml 0 [] self w2) as Hni.
    destruct (read_loop fuel s0 ml 0 [] self w2) as [[fr | e3 | |] o' w' t'];
      run_step; try discriminate; [rewrite read_except_run; discriminate |].
    now contradiction Hni.
  - exfalso. revert Hres. unfold read. run_step.
    destruct (sock self) as [s0 |]; run_step; [| discriminate].
    destruct (os_select s0 _ w) as [[[] | e0] w1]; run_step;
      [| discriminate | rewrite read_except_run; discriminate].
    destruct (os_recv s0 4 w1) as [[header | e1] w2]; run_step;
      [| rewrite read_except_run; discriminate].
    destruct (unpack_I header) as [e2 | ml] eqn:Hunpack; run_step;
      [rewrite read_except_run; discriminate |].
    apply unpack_range in Hunpack.
    pose proof (read_loop_returns fuel s0 ml 0 [] self w2 ltac:(lia)) as Hret.
    destruct (read_loop fuel s0 ml 0 [] self w2) as [[fr | e3 | |] o' w' t'];
      run_step; try discriminate; [rewrite read_except_run; discriminate |].
    now contradiction Hret.
Qed.

End ReadComplete.

(** A header that arrives in two pieces is not reassembled: [recv(4)] is
    called once and [unpack] rejects the three bytes it returned. *)
Example read_rejects_split_header :
  let r := read 10 0 (mkSocket 60 false (Some 4))
                (mkNet [x00; x00; x00; x01; x61] 3 false true 5) in
  res r = Ok (false, SOCK_ERROR) /\
  trace r = [EvSelect 4 60 (Done true);
             EvRecv 4 4 (Done [x00; x00; x00]);
             EvPrint "[STRUCT ERROR] (Socket.read) could not receive data, reason: unpack requires a buffer of 4 bytes"].
Proof. repeat split. Qed.

(** ** Socket.read: where the loop does not end *)

(** A closed connection reads as the empty bytes object, which adds nothing
    to [data_length]: the loop of [read] takes every turn the fuel allows. *)
Lemma read_loop_spins_on_closed (fuel : nat) (s : handle) (ml : Z) :
  forall (dl : Z) (fr : list bytes) (self : Socket) (m : Z) (r : bool)
         (fd : handle),
    dl < ml ->
    res (read_loop fuel s ml dl fr self (mkNet [] m true r fd)) = OutOfFuel.
Proof.
  induction fuel as [| fuel IH]; intros dl fr self m r fd Hlt;
    rewrite read_loop_eq;
    replace (dl <? ml) with true by (symmetry; apply Z.ltb_lt; lia).
  - reflexivity.
  - run_step. cbn [os_recv Net_platform]. unfold net_recv.
    replace (ml - dl <? 0) with false by (symmetry; apply Z.ltb_ge; lia).
    cbn [wire peer_closed]. rewrite res_after. apply IH. unfold len. cbn. lia.
Qed.

(** C5.  The peer announces five bytes, sends two and closes.  [read] takes
    the header and the two bytes, and from then on every [recv] returns
    [b""]: for no amount of fuel does the call return, neither the message
    nor a failure tuple. *)
Theorem read_spins_at_end_of_stream :
  forall (fuel : nat) (t : Z) (d : bool) (s : handle),
    res (read fuel 0 (mkSocket t d (Some s)) truncated_stream) = OutOfFuel.
Proof.
  intros fuel t d s. unfold read. run_step.
  cbv -[read_loop]. rewrite read_loop_eq.
  destruct fuel as [| fuel]; [reflexivity |].
  run_step. cbv -[read_loop].
  pose proof (read_loop_spins_on_closed fuel s 5 2 [[x61; x62]]
                (mkSocket t d (Some s)) 1024 true 5 eq_refl) as Hspin.
  cbv -[read_loop] in Hspin.
  destruct (read_loop fuel s _ _ _ _ _) as [x o' w' t']; cbn in Hspin.
  subst x. reflexivity.
Qed.

(** ** Socket.write *)

Section EmptyPayload.

Context {W : Type} {os : Platform W}.

(** [write(b"")]: the loop guard [sent < length] compares with the length
    of the payload, 0, not of the framed buffer, 4: no turn is taken. *)
Lemma write_empty_run (fuel : nat) (t : Z) (d : bool) (s : handle) (w : W) :
  write fuel (PyBytes []) (mkSocket t d (Some s)) w =
  mkRun (Ok true) (mkSocket t d (Some s)) w [].
Proof.
  unfold write. run_step. cbn. rewrite write_loop_eq. reflexivity.
Qed.

End EmptyPayload.

(** C2.  On a connected socket, over any platform, [write(b"")] returns
    [True] although none of the four bytes of its framed buffer
    [pack(">I", 0) + b""] was handed to [send]: the trace is empty. *)
Theorem write_true_without_sending :
  forall (W : Type) (os : Platform W) (fuel : nat) (t : Z) (d : bool)
         (s : handle) (w : W),
    pack_I (len (@nil byte)) = inr [x00; x00; x00; x00] /\
    res (write fuel (PyBytes []) (mkSocket t d (Some s)) w) = Ok true /\
    trace (write fuel (PyBytes []) (mkSocket t d (Some s)) w) = [] /\
    world (write fuel (PyBytes []) (mkSocket t d (Some s)) w) = w.
Proof.
  intros. rewrite write_empty_run. repeat split.
Qed.

(** The same guard with a payload: six bytes over a transport that takes six
    bytes per [send].  The first call takes the prefix and two payload
    bytes, [sent] reaches [length], and [write] returns [True] with four of
    the ten framed bytes never sent. *)
Example write_true_after_partial_send :
  let r := write 10 (PyBytes [x61; x62; x63; x64; x65; x66])
                 (mkSocket 60 false (Some 3)) (idle_net 6) in
  res r = Ok true /\
  trace r = [EvSend 3 [x00; x00; x00; x06; x61; x62; x63; x64; x65; x66] (Done 6)] /\
  wire (world r) = [x00; x00; x00; x06; x61; x62].
Proof. repeat split. Qed.

(** C9.  On a connected socket, an input whose bytes number more than
    2^32-1 makes [pack] raise [struct.error] before the loop: [write]
    returns [False], the trace holds no [send] call, and the object and the
    platform are as before. *)
Theorem write_oversized_sends_nothing :
  forall (W : Type) (os : Platform W) (fuel : nat) (data : pydata) (b : bytes)
         (self : Socket) (s : handle) (w : W),
    sock self = Some s ->
    to_bytes data = inr b ->
    4294967295 < len b ->
    res (write fuel data self w) = Ok false /\
    existsb is_send (trace (write fuel data self w)) = false /\
    obj (write fuel data self w) = self /\
    world (write fuel data self w) = w.
Proof.
  intros W os fuel data b self s w Hs Hb Hlen.
  unfold write. run_step. rewrite Hs, Hb. run_step.
  unfold pack_I.
  replace (len b <=? 4294967295) with false by (symmetry; apply Z.leb_gt; lia).
  rewrite andb_false_r. run_step. rewrite write_except_run. run_step.
  repeat split. unfold report_lines. destruct (debug self); reflexivity.
Qed.

Lemma write_oversized_sends_nothing_witness :
  sock (mkSocket 60 false (Some 3)) = Some 3 /\
  to_bytes (PyBytes oversized) = inr oversized /\
  4294967295 < len oversized /\
  res (write 1 (PyBytes oversized) (mkSocket 60 false (Some 3)) (mkNet [] 1024 false true 5))
    = Ok false.
Proof.
  assert (Hlen : 4294967295 < len oversized).
  { unfold len, oversized. rewrite repeat_length, Z2Nat.id; lia. }
  split; [reflexivity |]. split; [reflexivity |]. split; [exact Hlen |].
  apply (write_oversized_sends_nothing Net Net_platform 1 (PyBytes oversized)
           oversized (mkSocket 60 false (Some 3)) 3 (mkNet [] 1024 false true 5)
           eq_refl eq_refl Hlen).
Defined.

(** ** Writing, then reading on the peer *)

(** C1.  Two connected sockets on an idle stream, whatever a single call can
    transfer: [write(b"")] on one end returns [True] and leaves the wire
    empty, and [read()] on the peer then finds nothing readable and returns
    [(False, SOCK_TIMEOUT)], not [(True, b"")]. *)
Theorem roundtrip_loses_empty_payload :
  forall (fuel : nat) (m : Z) (t t' : Z) (d d' : bool) (hw hr : handle),
    write_then_read fuel (mkSocket t d (Some hw)) (mkSocket t' d' (Some hr))
                    (PyBytes []) (idle_net m)
      = (Ok true, Ok (false, SOCK_TIMEOUT)) /\
    wire (world (write fuel (PyBytes []) (mkSocket t d (Some hw)) (idle_net m))) = [].
Proof.
  intros. unfold write_then_read. rewrite write_empty_run. cbn [world res].
  split; [| reflexivity].
  unfold read. run_step. cbn. reflexivity.
Qed.

(** The peer of [write_true_after_partial_send]: the header announces six
    bytes, two arrive, the next receive times out. *)
Example roundtrip_loses_split_payload :
  write_then_read 10 (mkSocket 60 false (Some 3)) (mkSocket 60 false (Some 4))
                  (PyBytes [x61; x62; x63; x64; x65; x66]) (idle_net 6)
    = (Ok true, Ok (false, SOCK_ERROR)).
Proof. reflexivity. Qed.

(** A payload of at least one byte, over a stream whose every call moves the
    whole buffer: the single [send] takes prefix and payload together, and
    [write] followed by the peer's [read] returns the payload. *)
Lemma roundtrip_whole_transfer (fuel : nat) (p : bytes) (m : Z) (t t' : Z)
    (d d' : bool) (hw hr : handle) :
  p <> [] ->
  len p <= 4294967295 ->
  len p + 4 <= m ->
  write_then_read (S fuel) (mkSocket t d (Some hw)) (mkSocket t' d' (Some hr))
                  (PyBytes p) (idle_net m)
    = (Ok true, Ok (true, p)).
Proof.
  intros Hne Hmax Hm.
  pose proof (len_nonneg p) as Hp0.
  assert (Hpos : 0 < len p).
  { destruct p; [contradiction | unfold len; cbn; lia]. }
  unfold write_then_read.
  (* the writer *)
  assert (Hw : exists b3 b2 b1 b0,
             pack_I (len p) = inr [b3; b2; b1; b0] /\
             write (S fuel) (PyBytes p) (mkSocket t d (Some hw)) (idle_net m) =
             mkRun (Ok true) (mkSocket t d (Some hw))
                   (mkNet (b3 :: b2 :: b1 :: b0 :: p) m false true 5)
                   [EvSend hw (b3 :: b2 :: b1 :: b0 :: p) (Done (len p + 4))]).
  { unfold write. run_step. cbn [sock to_bytes]. run_step.
    unfold pack_I.
    replace (0 <=? len p) with true by (symmetry; apply Z.leb_le; lia).
    replace (len p <=? 4294967295) with true by (symmetry; apply Z.leb_le; lia).
    cbn [andb]. do 4 eexists. split; [reflexivity |].
    run_step. rewrite write_loop_eq.
    replace (0 <? len p) with true by (symmetry; apply Z.ltb_lt; lia).
    run_step. cbn [os_send Net_platform]. unfold net_send, idle_net, slice_from.
    cbn [Z.ltb Z.compare Z.to_nat skipn mtu wire peer_closed reachable next_fd app].
    set (data := _ :: _ :: _ :: _ :: p).
    assert (Hd : len data = len p + 4) by (unfold len, data; cbn [List.length]; lia).
    rewrite Hd.
    replace (Z.max 0 (Z.min (len p + 4) m)) with (len p + 4) by lia.
    replace (Z.to_nat (len p + 4)) with (List.length data)
      by (unfold len in *; lia).
    rewrite firstn_all. run_step. rewrite write_loop_eq.
    replace (0 + (len p + 4) <? len p) with false by (symmetry; apply Z.ltb_ge; lia).
    reflexivity. }
  destruct Hw as [b3 [b2 [b1 [b0 [Hpack Hw]]]]]. rewrite Hw. cbn [res world].
  f_equal.
  (* the reader *)
  apply unpack_pack in Hpack. destruct Hpack as [Hunpack _].
  unfold read. run_step. cbn [sock os_select Net_platform net_select wire].
  run_step. cbn [os_recv Net_platform]. unfold net_recv.
  cbn [Z.ltb Z.compare wire mtu peer_closed reachable next_fd].
  replace (Z.min 4 m) with 4 by lia.
  cbn [Z.to_nat]. change (Pos.to_nat 4) with 4%nat. cbn [firstn skipn].
  run_step. rewrite Hunpack. run_step.
  rewrite read_loop_eq.
  replace (0 <? len p) with true by (symmetry; apply Z.ltb_lt; lia).
  run_step. cbn [os_recv Net_platform]. unfold net_recv.
  replace (len p - 0 <? 0) with false by (symmetry; apply Z.ltb_ge; lia).
  cbn [wire mtu peer_closed reachable next_fd].
  destruct p as [| x p']; [contradiction |]. set (p := x :: p') in *.
  replace (Z.min (len p - 0) m) with (len p) by lia.
  assert (Hnat : Z.to_nat (len p) = List.length p) by (unfold len; lia).
  rewrite Hnat, firstn_all, skipn_all. run_step.
  rewrite read_loop_eq.
  replace (0 + len p <? len p) with false by (symmetry; apply Z.ltb_ge; lia).
  run_step. cbn [List.concat]. rewrite app_nil_r. reflexivity.
Qed.

(** ** Socket.__add__ and Socket.disconnect *)

(** C10.  [s + x] is [s.write(x)]: the same result, the same object
    afterwards, the same platform state and the same trace. *)
Theorem add_is_write :
  forall (W : Type) (os : Platform W) (fuel : nat) (x : pydata)
         (s : Socket) (w : W),
    __add__ fuel x s w = write fuel x s w /\
    res (__add__ fuel x s w) = res (write fuel x s w) /\
    obj (__add__ fuel x s w) = obj (write fuel x s w) /\
    world (__add__ fuel x s w) = world (write fuel x s w) /\
    trace (__add__ fuel x s w) = trace (write fuel x s w).
Proof. intros. unfold __add__. repeat split. Qed.

(** C7.  [disconnect] never raises, whatever the state of the object and
    whether [shutdown] and [close] succeed or raise; it leaves
    [self.__sock] as [None]; and a second call right after it returns at
    once: no platform call, no output, object and platform untouched. *)
Theorem disconnect_idempotent :
  forall (W : Type) (os : Platform W) (self : Socket) (w : W),
    let first := disconnect self w in
    let second := disconnect (obj first) (world first) in
    res first = Ok tt /\
    sock (obj first) = None /\
    second = mkRun (Ok tt) (obj first) (world first) [] /\
    sock (obj second) = None.
Proof.
  intros W os self w. unfold disconnect. run_step.
  destruct (sock self) as [s |] eqn:Hs; run_step.
  - destruct (os_shutdown s w) as [[[] | e1] w1]; run_step;
      destruct (os_close s w1) as [[[] | e2] w2]; run_step;
      repeat split; reflexivity.
  - rewrite Hs. repeat split; assumption.
Qed.

(** ** ServerBase.start *)

(** C6.  [start] on a server whose listener handle is present raises
    [Exception("server is already listening")] before anything else: the
    server object (listener handle, running flag) and the platform are
    unchanged, and the trace is empty, so no socket is created and no accept
    loop or thread is started. *)
Theorem start_while_listening_raises :
  forall (W : Type) (os : Platform W) (fuel : nat) (cb : callback) (port : Z)
         (address : string) (blocking : bool) (self : ServerBase) (w : W)
         (l : handle),
    listener self = Some l ->
    start fuel cb port address blocking self w =
      mkRun (Raise (Exn OtherException "server is already listening")) self w [].
Proof.
  intros W os fuel cb port address blocking self w l Hl.
  unfold start. run_step. rewrite Hl. reflexivity.
Qed.

Lemma start_while_listening_raises_witness :
  listener (mkServer false true (Some 7)) = Some 7 /\
  start 10 "echo_callback" 5551 "127.0.0.1" true (mkServer false true (Some 7))
        (mkNet [] 1024 false true 8) =
    mkRun (Raise (Exn OtherException "server is already listening"))
          (mkServer false true (Some 7)) (mkNet [] 1024 false true 8) [].
Proof.
  split; [reflexivity |].
  apply (start_while_listening_raises Net Net_platform 10 "echo_callback" 5551
           "127.0.0.1" true (mkServer false true (Some 7))
           (mkNet [] 1024 false true 8) 7).
  reflexivity.
Defined.

(** * Further properties *)

(** ** Socket.read: how a call can end *)

Section ReadOutcomes.

Context {W : Type} {os : Platform W}.

(** The body of [read] on a connected socket, up to the loop: what the
    outcome is in terms of the answers of the platform. *)
Lemma read_cases (fuel : nat) (t : Z) (self : Socket) (w : W) (s : handle) :
  sock self = Some s ->
  (exists w1, os_select s (if negb (t =? 0) then t else timeout self) w
                = (Done false, w1) /\
              read fuel t self w =
              mkRun (Ok (false, SOCK_TIMEOUT)) self w1
                [EvSelect s (if negb (t =? 0) then t else timeout self) (Done false)])
  \/
  (res (read fuel t self w) = Ok (false, SOCK_ERROR) /\
   forall w1, os_select s (if negb (t =? 0) then t else timeout self) w
                <> (Done false, w1))
  \/
  (exists w1 w2 header ml,
     os_select s (if negb (t =? 0) then t else timeout self) w = (Done true, w1) /\
     os_recv s 4 w1 = (Done header, w2) /\
     unpack_I header = inr ml /\
     match res (read_loop fuel s ml 0 [] self w2) with
     | Ok fr => res (read fuel t self w) = Ok (true, List.concat fr)
     | Raise _ => False
     | Interrupted => False
     | OutOfFuel => res (read fuel t self w) = OutOfFuel
     end /\
     trace (read fuel t self w) =
       EvSelect s (if negb (t =? 0) then t else timeout self) (Done true)
       :: EvRecv s 4 (Done header) :: trace (read_loop fuel s ml 0 [] self w2)).
Proof.
  intros Hs. unfold read. run_step. rewrite Hs. run_step.
  set (tm := if negb (t =? 0) then t else timeout self).
  destruct (os_select s tm w) as [[[] | e0] w1] eqn:Hsel; run_step.
  - destruct (os_recv s 4 w1) as [[header | e1] w2] eqn:Hrecv; run_step.
    + destruct (unpack_I header) as [e2 | ml] eqn:Hunpack; run_step.
      * right; left. rewrite read_except_run. split; [reflexivity | discriminate].
      * pose proof (read_loop_not_interrupted fuel s ml 0 [] self w2) as Hni.
        destruct (read_loop fuel s ml 0 [] self w2) as [[fr | e3 | |] o' w' t']
          eqn:Hloop; run_step; cbn [res] in Hni.
        -- right; right. exists w1, w2, header, ml.
           rewrite Hloop. cbn [res trace]. rewrite app_nil_r. auto.
        -- right; left. rewrite read_except_run.
           split; [reflexivity | discriminate].
        -- now contradiction Hni.
        -- right; right. exists w1, w2, header, ml.
           rewrite Hloop. cbn [res trace]. auto.
    + right; left. rewrite read_except_run. split; [reflexivity | discriminate].
  - left. exists w1. split; reflexivity.
  - right; left. rewrite read_except_run. split; [reflexivity | discriminate].
Qed.

End ReadOutcomes.

(** X1.  No exception leaves [read]: over every platform, a call ends with
    [(True, payload)], with [(False, SOCK_TIMEOUT)], with
    [(False, SOCK_ERROR)], or is still in its loop when the fuel is spent. *)
Theorem read_never_raises :
  forall (W : Type) (os : Platform W) (fuel : nat) (t : Z) (self : Socket)
         (w : W),
    (exists payload, res (read fuel t self w) = Ok (true, payload)) \/
    res (read fuel t self w) = Ok (false, SOCK_TIMEOUT) \/
    res (read fuel t self w) = Ok (false, SOCK_ERROR) \/
    res (read fuel t self w) = OutOfFuel.
Proof.
  intros W os fuel t self w.
  destruct (sock self) as [s |] eqn:Hs.
  - destruct (read_cases fuel t self w s Hs)
      as [[w1 [_ Hrun]] | [[Herr _] | [w1 [w2 [header [ml [_ [_ [_ [Hres _]]]]]]]]]].
    + rewrite Hrun. auto.
    + auto.
    + destruct (res (read_loop fuel s ml 0 [] self w2)); try contradiction; eauto.
  - rewrite read_not_connected by assumption. auto.
Qed.

(** X2.  [read] returns the timeout marker in exactly two situations: the
    object is not connected, or [select] reported the socket not readable
    within the timeout, which is [timeout_override] unless that is 0 and
    [self.timeout] then.  In both, no [recv] call is made. *)
Theorem read_timeout_iff :
  forall (W : Type) (os : Platform W) (fuel : nat) (t : Z) (self : Socket)
         (w : W),
    (res (read fuel t self w) = Ok (false, SOCK_TIMEOUT) <->
     sock self = None \/
     exists s w1,
       sock self = Some s /\
       os_select s (if negb (t =? 0) then t else timeout self) w
         = (Done false, w1)) /\
    (res (read fuel t self w) = Ok (false, SOCK_TIMEOUT) ->
     forall s n r, ~ In (EvRecv s n r) (trace (read fuel t self w))).
Proof.
  intros W os fuel t self w.
  destruct (sock self) as [s |] eqn:Hs.
  - destruct (read_cases fuel t self w s Hs)
      as [[w1 [Hsel Hrun]] | [[Herr Hsel] | [w1 [w2 [header [ml [Hsel [_ [_ [Hres _]]]]]]]]]].
    + rewrite Hrun. cbn [res trace]. split.
      * split; [intros _; right; eauto | reflexivity].
      * intros _ s' n r [H | []]. discriminate.
    + rewrite Herr. split.
      * split; [discriminate |].
        intros [H | [s' [w1 [Hs' Hsel']]]]; [discriminate |].
        injection Hs' as <-. now contradiction (Hsel w1).
      * discriminate.
    + assert (Hno : res (read fuel t self w) <> Ok (false, SOCK_TIMEOUT)).
      { destruct (res (read_loop fuel s ml 0 [] self w2)); try contradiction;
          rewrite Hres; discriminate. }
      split.
      * split; [intros H; now contradiction Hno |].
        intros [H | [s' [w1' [Hs' Hsel']]]]; [discriminate |].
        injection Hs' as <-. rewrite Hsel in Hsel'. discriminate.
      * intros H; now contradiction Hno.
  - rewrite read_not_connected by assumption. cbn [res trace]. split.
    + split; [intros _; now left | reflexivity].
    + intros _ s' n r [H | []]. discriminate.
Qed.

Section ReadStalls.

Context {W : Type} {os : Platform W}.

(** A turn of the loop of [read] either adds at least one byte, or ends the
    loop with an exception, or received the empty bytes object. *)
Lemma read_loop_stalls (fuel : nat) (s : handle) (ml : Z) :
  forall (dl : Z) (fr : list bytes) (self : Socket) (w : W),
    ml - dl <= Z.of_nat fuel ->
    res (read_loop fuel s ml dl fr self w) <> OutOfFuel \/
    exists n, 0 < n /\
      In (EvRecv s n (Done [])) (trace (read_loop fuel s ml dl fr self w)).
Proof.
  induction fuel as [| fuel IH]; intros dl fr self w Hfuel;
    rewrite read_loop_eq; destruct (dl <? ml) eqn:E; run_step;
    try (left; discriminate).
  - apply Z.ltb_lt in E. lia.
  - apply Z.ltb_lt in E.
    destruct (os_recv s (ml - dl) w) as [[buffer | e0] w1]; run_step;
      [| left; discriminate].
    rewrite res_after, trace_after.
    destruct buffer as [| x buffer].
    + right. exists (ml - dl). split; [lia | now left].
    + destruct (IH (dl + len (x :: buffer)) (fr ++ [x :: buffer]) self w1)
        as [Hok | [n [Hn Hin]]].
      * unfold len. cbn [List.length]. lia.
      * now left.
      * right. exists n. split; [assumption | now right].
Qed.

End ReadStalls.

(** X3.  A bound on the loop of [read], for calls whose [recv] calls all
    come back; a [recv] that blocks for ever, as on a socket without a
    timeout whose peer stays silent, is no turn of the loop and is not
    covered.  After as many turns as the longest message the prefix can
    announce has bytes, [read] has returned a tuple, or some [recv] that
    asked for at least one byte returned the empty bytes object. *)
Theorem read_returns_unless_recv_empty :
  forall (W : Type) (os : Platform W) (fuel : nat) (t : Z) (self : Socket)
         (w : W),
    4294967295 <= Z.of_nat fuel ->
    (exists v, res (read fuel t self w) = Ok v) \/
    (exists s n, 0 < n /\
       In (EvRecv s n (Done [])) (trace (read fuel t self w))).
Proof.
  intros W os fuel t self w Hfuel.
  destruct (sock self) as [s |] eqn:Hs.
  - destruct (read_cases fuel t self w s Hs)
      as [[w1 [_ Hrun]] | [[Herr _] | [w1 [w2 [header [ml [_ [_ [Hun [Hres Htr]]]]]]]]]].
    + left. rewrite Hrun. cbn [res]. eauto.
    + left. eauto.
    + apply unpack_range in Hun.
      destruct (read_loop_stalls fuel s ml 0 [] self w2 ltac:(lia))
        as [Hok | [n [Hn Hin]]].
      * left. destruct (res (read_loop fuel s ml 0 [] self w2));
          try contradiction; eauto.
      * right. exists s, n. split; [assumption |].
        rewrite Htr. right. right. assumption.
  - left. rewrite read_not_connected by assumption. cbn [res]. eauto.
Qed.

(** The stream of C5: fuel for the longest message, and the loop is still
    turning on an empty [recv]. *)
Lemma read_returns_unless_recv_empty_witness :
  4294967295 <= Z.of_nat (Z.to_nat 4294967295) /\
  ((exists v, res (read (Z.to_nat 4294967295) 0 (mkSocket 60 false (Some 4))
                        truncated_stream) = Ok v) \/
   (exists s n, 0 < n /\
      In (EvRecv s n (Done []))
         (trace (read (Z.to_nat 4294967295) 0 (mkSocket 60 false (Some 4))
                      truncated_stream)))).
Proof.
  assert (H : 4294967295 <= Z.of_nat (Z.to_nat 4294967295))
    by (rewrite Z2Nat.id; lia).
  split; [exact H |].
  exact (read_returns_unless_recv_empty Net Net_platform
           (Z.to_nat 4294967295) 0 (mkSocket 60 false (Some 4))
           truncated_stream H).
Defined.

(** ** Socket.read on the loop-back network *)

Lemma net_recv_bounded (s : handle) (n : Z) (w w' : Net) (b : bytes) :
  os_recv s n w = (Done b, w') -> 0 <= n -> len b <= n.
Proof.
  cbn [os_recv Net_platform]. unfold net_recv.
  destruct (n <? 0); [discriminate |].
  destruct (wire w) as [| x rest].
  - destruct (peer_closed w); [| discriminate].
    intros H Hn. injection H as <- _. unfold len. cbn. lia.
  - intros H Hn. injection H as <- _.
    pose proof (firstn_le_length (Z.to_nat (Z.min n (mtu w))) (x :: rest)) as Hk.
    unfold len. lia.
Qed.

(** X4.  When [recv(n)] never returns more than [n] bytes, a [read] that
    returns [(True, payload)] received a four-byte header that decodes to
    the length of [payload], and header and payload are, in order, the
    bytes its [recv] calls returned: a partial message is never returned as
    a success. *)
Theorem read_never_partial :
  forall (W : Type) (os : Platform W),
    (forall (s : handle) (n : Z) (w w' : W) (b : bytes),
        os_recv s n w = (Done b, w') -> 0 <= n -> len b <= n) ->
    forall (fuel : nat) (t : Z) (self : Socket) (w : W) (payload : bytes),
      res (read fuel t self w) = Ok (true, payload) ->
      exists header : bytes,
        unpack_I header = inr (len payload) /\
        received (trace (read fuel t self w)) = header ++ payload.
Proof.
  intros W os Hbounded fuel t self w payload Hres.
  now apply read_success_complete.
Qed.

(** Six bytes that arrive in two pieces of four and two. *)
Lemma read_never_partial_witness :
  res (read 5 0 (mkSocket 60 false (Some 4))
            (mkNet [x00; x00; x00; x06; x61; x62; x63; x64; x65; x66] 4
                   false true 5))
    = Ok (true, [x61; x62; x63; x64; x65; x66]) /\
  exists header : bytes,
    unpack_I header = inr (len [x61; x62; x63; x64; x65; x66]) /\
    received (trace (read 5 0 (mkSocket 60 false (Some 4))
                      (mkNet [x00; x00; x00; x06; x61; x62; x63; x64; x65; x66] 4
                             false true 5)))
      = header ++ [x61; x62; x63; x64; x65; x66].
Proof.
  split; [reflexivity |].
  apply (read_never_partial Net Net_platform net_recv_bounded 5 0
           (mkSocket 60 false (Some 4))
           (mkNet [x00; x00; x00; x06; x61; x62; x63; x64; x65; x66] 4
                  false true 5)
           [x61; x62; x63; x64; x65; x66]).
  reflexivity.
Defined.

(** On the loop-back network the loop of [read] takes what is left of the
    message from the front of the wire, in as many pieces as the transfer
    limit makes, and leaves what follows it. *)
Lemma net_read_loop (fuel : nat) (s : handle) (ml m : Z) (c r : bool)
    (fd : handle) :
  1 <= m ->
  forall (rem : bytes) (dl : Z) (fr : list bytes) (rest : bytes) (self : Socket),
    len rem = ml - dl ->
    len rem <= Z.of_nat fuel ->
    exists (frs : list bytes) (t : list event),
      read_loop fuel s ml dl fr self (mkNet (rem ++ rest) m c r fd) =
        mkRun (Ok frs) self (mkNet rest m c r fd) t /\
      List.concat frs = List.concat fr ++ rem.
Proof.
  intros Hm. induction fuel as [| fuel IH]; intros rem dl fr rest self Hrem Hfuel;
    rewrite read_loop_eq.
  - assert (rem = []) as ->.
    { destruct rem; [reflexivity | unfold len in Hfuel; cbn in Hfuel; lia]. }
    unfold len in Hrem. cbn in Hrem.
    replace (dl <? ml) with false by (symmetry; apply Z.ltb_ge; lia).
    exists fr, []. split; [reflexivity | now rewrite app_nil_r].
  - destruct rem as [| x rem'].
    + unfold len in Hrem. cbn in Hrem.
      replace (dl <? ml) with false by (symmetry; apply Z.ltb_ge; lia).
      exists fr, []. split; [reflexivity | now rewrite app_nil_r].
    + set (rem := x :: rem') in *.
      assert (Hpos : 0 < len rem) by (unfold len, rem; cbn [List.length]; lia).
      replace (dl <? ml) with true by (symmetry; apply Z.ltb_lt; lia).
      run_step. cbn [os_recv Net_platform]. unfold net_recv.
      replace (ml - dl <? 0) with false by (symmetry; apply Z.ltb_ge; lia).
      cbn [wire mtu peer_closed reachable next_fd].
      set (k := Z.to_nat (Z.min (ml - dl) m)).
      assert (Hk : (1 <= k <= List.length rem)%nat) by (unfold len in *; lia).
      assert (Hcons : rem ++ rest = x :: (rem' ++ rest)) by reflexivity.
      rewrite Hcons. cbn [app]. rewrite <- Hcons.
      assert (Hfirst : firstn k (rem ++ rest) = firstn k rem).
      { rewrite firstn_app.
        replace (k - List.length rem)%nat with 0%nat by lia.
        cbn [firstn]. now rewrite app_nil_r. }
      assert (Hskip : skipn k (rem ++ rest) = skipn k rem ++ rest).
      { rewrite skipn_app.
        replace (k - List.length rem)%nat with 0%nat by lia. reflexivity. }
      rewrite Hfirst, Hskip.
      assert (Hlen1 : len (firstn k rem) = Z.of_nat k).
      { unfold len. rewrite length_firstn. lia. }
      assert (Hlen2 : len (skipn k rem) = len rem - Z.of_nat k).
      { unfold len. rewrite length_skipn. lia. }
      destruct (IH (skipn k rem) (dl + len (firstn k rem))
                   (fr ++ [firstn k rem]) rest self)
        as [frs [t [Hrun Hcat]]]; [lia | lia |].
      eexists frs, _. split; [exact (f_equal (after _) Hrun) |].
      rewrite Hcat, concat_app. cbn [List.concat].
      rewrite app_nil_r, <- app_assoc, firstn_skipn. reflexivity.
Qed.

(** One frame at the front of the wire: [read] returns its payload and
    leaves what follows. *)
Lemma net_read_frame (fuel : nat) (t0 t : Z) (d : bool) (s : handle)
    (p prefix rest : bytes) (m : Z) (c r : bool) (fd : handle) :
  pack_I (len p) = inr prefix ->
  4 <= m ->
  len p <= Z.of_nat fuel ->
  res (read fuel t0 (mkSocket t d (Some s)) (mkNet (prefix ++ p ++ rest) m c r fd))
    = Ok (true, p) /\
  world (read fuel t0 (mkSocket t d (Some s)) (mkNet (prefix ++ p ++ rest) m c r fd))
    = mkNet rest m c r fd /\
  obj (read fuel t0 (mkSocket t d (Some s)) (mkNet (prefix ++ p ++ rest) m c r fd))
    = mkSocket t d (Some s).
Proof.
  intros Hpack Hm Hfuel.
  assert (Hunpack : unpack_I prefix = inr (len p)) by (now apply unpack_pack).
  assert (exists b3 b2 b1 b0, prefix = [b3; b2; b1; b0]) as [b3 [b2 [b1 [b0 ->]]]].
  { unfold pack_I in Hpack.
    destruct ((0 <=? len p) && (len p <=? 4294967295)); [| discriminate].
    injection Hpack as <-. eauto. }
  unfold read. run_step. cbn [sock os_select Net_platform net_select wire app].
  run_step. cbn [os_recv Net_platform]. unfold net_recv.
  cbn [Z.ltb Z.compare wire mtu peer_closed reachable next_fd].
  replace (Z.min 4 m) with 4 by lia.
  cbn [Z.to_nat]. change (Pos.to_nat 4) with 4%nat. cbn [firstn skipn].
  run_step. rewrite Hunpack. run_step.
  destruct (net_read_loop fuel s (len p) m c r fd ltac:(lia) p 0 [] rest
              (mkSocket t d (Some s)) ltac:(lia) Hfuel)
    as [frs [tr [Hrun Hcat]]].
  rewrite Hrun. run_step. cbn [List.concat app] in Hcat. rewrite Hcat.
  repeat split; reflexivity.
Qed.

(** X5.  On the loop-back network, with a timeout that [select] accepts, a
    transfer limit of at least four bytes and fuel for the payload, [read]
    takes exactly one frame from the front of the stream, whatever the
    number of [recv] calls the payload needs, and leaves the bytes that
    follow it on the wire; the frame of the empty payload included. *)
Theorem read_takes_one_frame :
  forall (fuel : nat) (t0 t : Z) (d : bool) (s : handle) (p prefix rest : bytes)
         (m : Z) (c r : bool) (fd : handle),
    0 <= (if negb (t0 =? 0) then t0 else t) <= 2147483647 ->
    pack_I (len p) = inr prefix ->
    4 <= m ->
    len p <= Z.of_nat fuel ->
    res (read fuel t0 (mkSocket t d (Some s)) (mkNet (prefix ++ p ++ rest) m c r fd))
      = Ok (true, p) /\
    world (read fuel t0 (mkSocket t d (Some s)) (mkNet (prefix ++ p ++ rest) m c r fd))
      = mkNet rest m c r fd.
Proof.
  intros fuel t0 t d s p prefix rest m c r fd _ Hpack Hm Hfuel.
  destruct (net_read_frame fuel t0 t d s p prefix rest m c r fd Hpack Hm Hfuel)
    as [Hres [Hworld _]].
  split; assumption.
Qed.

(** The frame of six bytes, followed by the frame of the empty payload,
    over a stream that moves four bytes per call. *)
Lemma read_takes_one_frame_witness :
  0 <= (if negb (0 =? 0) then 0 else 60) <= 2147483647 /\
  pack_I (len [x61; x62; x63; x64; x65; x66]) = inr [x00; x00; x00; x06] /\
  4 <= 4 /\
  len [x61; x62; x63; x64; x65; x66] <= Z.of_nat 6 /\
  res (read 6 0 (mkSocket 60 false (Some 4))
         (mkNet ([x00; x00; x00; x06] ++ [x61; x62; x63; x64; x65; x66]
                   ++ [x00; x00; x00; x00]) 4 false true 5))
    = Ok (true, [x61; x62; x63; x64; x65; x66]) /\
  world (read 6 0 (mkSocket 60 false (Some 4))
         (mkNet ([x00; x00; x00; x06] ++ [x61; x62; x63; x64; x65; x66]
                   ++ [x00; x00; x00; x00]) 4 false true 5))
    = mkNet [x00; x00; x00; x00] 4 false true 5.
Proof.
  split; [cbn; lia |].
  split; [reflexivity |]. split; [lia |]. split; [unfold len; cbn; lia |].
  apply (read_takes_one_frame 6 0 60 false 4 [x61; x62; x63; x64; x65; x66]
           [x00; x00; x00; x06] [x00; x00; x00; x00] 4 false true 5).
  - cbn. lia.
  - reflexivity.
  - lia.
  - unfold len. cbn. lia.
Defined.

(** ** Socket.write: how a call can end, and what it sends *)

Lemma firstn_firstn_skipn {A : Type} (a b : nat) (l : list A) :
  firstn a l ++ firstn b (skipn a l) = firstn (a + b) l.
Proof.
  revert l. induction a as [| a IH]; intros l; [reflexivity |].
  destruct l as [| x l]; cbn [firstn skipn app Nat.add].
  - now rewrite firstn_nil.
  - now rewrite IH.
Qed.

Lemma accepted_app (t1 t2 : list event) :
  accepted (t1 ++ t2) = accepted t1 ++ accepted t2.
Proof.
  induction t1 as [| ev t1 IH]; [reflexivity |].
  destruct ev; cbn [accepted app]; try assumption.
  destruct r; [rewrite IH, app_assoc; reflexivity | assumption].
Qed.

Lemma accepted_report_lines (method what : string) (err : exn) (dbg : bool) :
  accepted (report_lines method what err dbg) = [].
Proof. destruct dbg; reflexivity. Qed.

Section WriteOutcomes.

Context {W : Type} {os : Platform W}.

Lemma write_loop_not_interrupted (fuel : nat) (s : handle) (data : bytes)
    (length : Z) :
  forall (sent : Z) (self : Socket) (w : W),
    res (write_loop fuel s data length sent self w) <> Interrupted.
Proof.
  induction fuel as [| fuel IH]; intros sent self w;
    rewrite write_loop_eq; destruct (sent <? length); run_step; try discriminate.
  destruct (os_send s (slice_from data sent) w) as [[n | e0] w1]; run_step;
    [rewrite res_after; apply IH | discriminate].
Qed.

(** [write] on a connected socket, once the data are bytes: the prefix is
    packed, and the outcome is the one of the loop. *)
Lemma write_cases (fuel : nat) (data : pydata) (b : bytes) (self : Socket)
    (w : W) (s : handle) :
  sock self = Some s ->
  to_bytes data = inr b ->
  (exists e, pack_I (len b) = inl e /\
             write fuel data self w =
             mkRun (Ok false) self w (report_lines "write" "send" e (debug self)))
  \/
  (exists prefix,
     pack_I (len b) = inr prefix /\
     match res (write_loop fuel s (prefix ++ b) (len b) 0 self w) with
     | Ok _ =>
         res (write fuel data self w) = Ok true /\
         trace (write fuel data self w) =
           trace (write_loop fuel s (prefix ++ b) (len b) 0 self w)
     | Raise e =>
         res (write fuel data self w) = Ok false /\
         trace (write fuel data self w) =
           trace (write_loop fuel s (prefix ++ b) (len b) 0 self w)
           ++ report_lines "write" "send" e (debug self)
     | Interrupted => False
     | OutOfFuel =>
         res (write fuel data self w) = OutOfFuel /\
         trace (write fuel data self w) =
           trace (write_loop fuel s (prefix ++ b) (len b) 0 self w)
     end).
Proof.
  intros Hs Hb. unfold write. run_step. rewrite Hs, Hb. run_step.
  destruct (pack_I (len b)) as [e | prefix] eqn:Hpack; run_step.
  - left. exists e. rewrite write_except_run. split; reflexivity.
  - right. exists prefix. split; [reflexivity |].
    pose proof (write_loop_not_interrupted fuel s (prefix ++ b) (len b) 0 self w)
      as Hni.
    pose proof (quiet_write_loop fuel s (prefix ++ b) (len b) 0 self w) as [Hobj _].
    destruct (write_loop fuel s (prefix ++ b) (len b) 0 self w)
      as [[[] | e3 | |] o' w' t']; run_step; cbn [res obj] in Hni, Hobj.
    + split; [reflexivity | now rewrite app_nil_r].
    + rewrite write_except_run. subst o'. split; reflexivity.
    + now contradiction Hni.
    + split; reflexivity.
Qed.

(** What the socket layer promises of [send(buf)]: it takes between none
    and all of the bytes of [buf]. *)
Hypothesis send_bounded :
  forall (s : handle) (buf : bytes) (w w' : W) (n : Z),
    os_send s buf w = (Done n, w') -> 0 <= n <= len buf.

(** When the loop of [write] ends normally, what the [send] calls took
    continues the bytes already sent to a prefix of the buffer, and that
    prefix has at least [length] bytes. *)
Lemma write_loop_prefix (fuel : nat) (s : handle) (data : bytes) (length : Z) :
  forall (sent : Z) (self : Socket) (w : W),
    0 <= sent <= len data ->
    res (write_loop fuel s data length sent self w) = Ok tt ->
    exists N : Z,
      sent <= N <= len data /\ length <= N /\
      firstn (Z.to_nat sent) data
        ++ accepted (trace (write_loop fuel s data length sent self w))
      = firstn (Z.to_nat N) data.
Proof.
  induction fuel as [| fuel IH]; intros sent self w Hsent;
    rewrite write_loop_eq; destruct (sent <? length) eqn:E; run_step;
    try discriminate.
  - intros _. apply Z.ltb_ge in E. exists sent.
    rewrite app_nil_r. repeat split; lia.
  - destruct (os_send s (slice_from data sent) w) as [[n | e0] w1] eqn:Hsend;
      run_step; [| discriminate].
    rewrite res_after, trace_after. intros Hres.
    assert (Hslice : slice_from data sent = skipn (Z.to_nat sent) data).
    { unfold slice_from.
      replace (sent <? 0) with false by (symmetry; apply Z.ltb_ge; lia).
      reflexivity. }
    apply send_bounded in Hsend. rewrite Hslice in Hsend.
    assert (Hn : 0 <= n <= len data - sent).
    { unfold len in *. rewrite length_skipn in Hsend. lia. }
    destruct (IH (sent + n) self w1 ltac:(lia) Hres) as [N [HN [HL Hacc]]].
    exists N. repeat split; try lia.
    cbn [accepted app]. rewrite Hslice, app_assoc, firstn_firstn_skipn.
    rewrite <- Hacc. f_equal. f_equal. lia.
  - intros _. apply Z.ltb_ge in E. exists sent.
    rewrite app_nil_r. repeat split; lia.
Qed.

End WriteOutcomes.

Lemma net_send_bounded (s : handle) (buf : bytes) (w w' : Net) (n : Z) :
  os_send s buf w = (Done n, w') -> 0 <= n <= len buf.
Proof.
  cbn [os_send Net_platform]. unfold net_send. intros H. injection H as <- _.
  pose proof (len_nonneg buf). lia.
Qed.

(** X6.  When [send(buf)] takes between none and all of [buf], a [write]
    that returns [True] was called on a connected socket with data that are
    or encode to bytes [b], and the bytes its [send] calls took are, in
    order, the first [N] bytes of [pack(">I", len(b)) + b] for some [N]
    from [len(b)] to [len(b) + 4]: the payload length is reached, the whole
    frame need not be. *)
Theorem write_sends_frame_prefix :
  forall (W : Type) (os : Platform W),
    (forall (s : handle) (buf : bytes) (w w' : W) (n : Z),
        os_send s buf w = (Done n, w') -> 0 <= n <= len buf) ->
    forall (fuel : nat) (data : pydata) (self : Socket) (w : W),
      res (write fuel data self w) = Ok true ->
      exists (s : handle) (b prefix : bytes) (N : Z),
        sock self = Some s /\
        to_bytes data = inr b /\
        pack_I (len b) = inr prefix /\
        len b <= N <= len b + 4 /\
        accepted (trace (write fuel data self w))
          = firstn (Z.to_nat N) (prefix ++ b).
Proof.
  intros W os Hbounded fuel data self w Hres.
  destruct (sock self) as [s |] eqn:Hs.
  - destruct (to_bytes data) as [e | b] eqn:Hb.
    + exfalso. revert Hres. unfold write. run_step. rewrite Hs, Hb. run_step.
      discriminate.
    + destruct (write_cases fuel data b self w s Hs Hb)
        as [[e [_ Hrun]] | [prefix [Hpack Hloop]]].
      * rewrite Hrun in Hres. discriminate.
      * destruct (res (write_loop fuel s (prefix ++ b) (len b) 0 self w))
          as [[] | e | |] eqn:Hl; try contradiction;
          destruct Hloop as [Hr Htr]; rewrite Hr in Hres; try discriminate.
        destruct (unpack_pack _ _ Hpack) as [_ Hlen].
        destruct (write_loop_prefix Hbounded fuel s (prefix ++ b) (len b) 0 self w)
          as [N [HN [HL Hacc]]].
        { rewrite len_app. pose proof (len_nonneg b). lia. }
        { assumption. }
        exists s, b, prefix, N. rewrite len_app in HN.
        split; [reflexivity |]. split; [reflexivity |].
        split; [exact Hpack |]. split; [lia |].
        rewrite Htr. exact Hacc.
  - exfalso. revert Hres. unfold write. run_step. rewrite Hs. run_step.
    discriminate.
Qed.

(** Six bytes over a stream that takes six bytes per call: [True] after the
    first six of the ten framed bytes. *)
Lemma write_sends_frame_prefix_witness :
  res (write 10 (PyBytes [x61; x62; x63; x64; x65; x66])
             (mkSocket 60 false (Some 3)) (idle_net 6)) = Ok true /\
  exists (s : handle) (b prefix : bytes) (N : Z),
    sock (mkSocket 60 false (Some 3)) = Some s /\
    to_bytes (PyBytes [x61; x62; x63; x64; x65; x66]) = inr b /\
    pack_I (len b) = inr prefix /\
    len b <= N <= len b + 4 /\
    accepted (trace (write 10 (PyBytes [x61; x62; x63; x64; x65; x66])
                           (mkSocket 60 false (Some 3)) (idle_net 6)))
      = firstn (Z.to_nat N) (prefix ++ b).
Proof.
  split; [reflexivity |].
  apply (write_sends_frame_prefix Net Net_platform net_send_bounded 10
           (PyBytes [x61; x62; x63; x64; x65; x66])
           (mkSocket 60 false (Some 3)) (idle_net 6)).
  reflexivity.
Defined.

(** X7.  The one exception that leaves [write] is the one [str.encode]
    raises, and only on a connected socket, where it is raised before
    anything is sent or printed.  On a socket that is not connected [write]
    returns [False] without looking at the data; with data that are or
    encode to bytes it returns [True] or [False], or is still in its loop
    when the fuel is spent. *)
Theorem write_raises_only_on_encoding :
  forall (W : Type) (os : Platform W) (fuel : nat) (data : pydata)
         (self : Socket) (w : W),
    match sock self, to_bytes data with
    | None, _ =>
        write fuel data self w =
        mkRun (Ok false) self w
          [EvPrint "[ERROR] (Socket.write) could not send data, reason: socket is not connected"]
    | Some _, inl e => write fuel data self w = mkRun (Raise e) self w []
    | Some _, inr _ =>
        res (write fuel data self w) = Ok true \/
        res (write fuel data self w) = Ok false \/
        res (write fuel data self w) = OutOfFuel
    end.
Proof.
  intros W os fuel data self w.
  destruct (sock self) as [s |] eqn:Hs.
  - destruct (to_bytes data) as [e | b] eqn:Hb.
    + unfold write. run_step. rewrite Hs, Hb. reflexivity.
    + destruct (write_cases fuel data b self w s Hs Hb)
        as [[e [_ Hrun]] | [prefix [_ Hloop]]].
      * rewrite Hrun. auto.
      * destruct (res (write_loop fuel s (prefix ++ b) (len b) 0 self w));
          try contradiction; destruct Hloop as [Hr _]; auto.
  - unfold write. run_step. rewrite Hs. reflexivity.
Qed.

(** A string holding the lone surrogate U+D800 cannot be encoded. *)
Example write_lone_surrogate_raises :
  res (write 10 (PyStr [104; 55296]) (mkSocket 60 false (Some 3)) (idle_net 1024))
    = Raise (Exn OtherException "'utf-8' codec can't encode character") /\
  res (write 10 (PyStr [104; 55296]) (mkSocket 60 false None) (idle_net 1024))
    = Ok false.
Proof. split; reflexivity. Qed.

Section WriteStalls.

Context {W : Type} {os : Platform W}.

(** A turn of the loop of [write] either adds at least one byte to [sent],
    or ends the loop with an exception, or its [send] returned no more
    than 0. *)
Lemma write_loop_stalls (fuel : nat) (s : handle) (data : bytes) (length : Z) :
  forall (sent : Z) (self : Socket) (w : W),
    length - sent <= Z.of_nat fuel ->
    res (write_loop fuel s data length sent self w) <> OutOfFuel \/
    exists buf n, n <= 0 /\
      In (EvSend s buf (Done n)) (trace (write_loop fuel s data length sent self w)).
Proof.
  induction fuel as [| fuel IH]; intros sent self w Hfuel;
    rewrite write_loop_eq; destruct (sent <? length) eqn:E; run_step;
    try (left; discriminate).
  - apply Z.ltb_lt in E. lia.
  - apply Z.ltb_lt in E.
    destruct (os_send s (slice_from data sent) w) as [[n | e0] w1]; run_step;
      [| left; discriminate].
    rewrite res_after, trace_after.
    destruct (Z_le_gt_dec n 0) as [Hn | Hn].
    + right. exists (slice_from data sent), n. split; [assumption | now left].
    + destruct (IH (sent + n) self w1 ltac:(lia)) as [Hok | [buf [k [Hk Hin]]]].
      * now left.
      * right. exists buf, k. split; [assumption | now right].
Qed.

End WriteStalls.

Section WriteReturns.

Context {W : Type} {os : Platform W}.

(** With fuel for one turn per payload byte, [write] of data that are or
    encode to bytes has returned, or some [send] returned 0 or less. *)
Lemma write_returns_or_send_empty (fuel : nat) (data : pydata) (b : bytes)
    (self : Socket) (w : W) :
  to_bytes data = inr b ->
  len b <= Z.of_nat fuel ->
  (exists v, res (write fuel data self w) = Ok v) \/
  (exists s buf n, n <= 0 /\
     In (EvSend s buf (Done n)) (trace (write fuel data self w))).
Proof.
  intros Hb Hfuel.
  destruct (sock self) as [s |] eqn:Hs.
  - destruct (write_cases fuel data b self w s Hs Hb)
      as [[e [_ Hrun]] | [prefix [_ Hloop]]].
    + left. rewrite Hrun. cbn [res]. eauto.
    + destruct (write_loop_stalls fuel s (prefix ++ b) (len b) 0 self w ltac:(lia))
        as [Hok | [buf [n [Hn Hin]]]].
      * left. destruct (res (write_loop fuel s (prefix ++ b) (len b) 0 self w));
          try contradiction; try congruence; destruct Hloop as [Hr _]; eauto.
      * right. exists s, buf, n. split; [assumption |].
        destruct (res (write_loop fuel s (prefix ++ b) (len b) 0 self w));
          try contradiction; destruct Hloop as [_ Htr]; rewrite Htr;
          try assumption.
        apply in_or_app. now left.
  - left. unfold write. run_step. rewrite Hs. run_step. eauto.
Qed.

End WriteReturns.

(** X8.  A bound on the loop of [write], for calls whose [send] calls all
    come back; a [send] that blocks for ever, as when the peer stops
    reading on a socket without a timeout, is no turn of the loop and is not
    covered.  When every [send] that succeeded took at least one byte, as
    [send] on a stream socket does for a buffer that is not empty, [write]
    of data that are or encode to bytes returns within one turn per payload
    byte. *)
Theorem write_returns_when_send_takes_bytes :
  forall (W : Type) (os : Platform W) (fuel : nat) (data : pydata) (b : bytes)
         (self : Socket) (w : W),
    to_bytes data = inr b ->
    len b <= Z.of_nat fuel ->
    (forall s buf n,
        In (EvSend s buf (Done n)) (trace (write fuel data self w)) -> 1 <= n) ->
    exists v, res (write fuel data self w) = Ok v.
Proof.
  intros W os fuel data b self w Hb Hfuel Hsend.
  destruct (write_returns_or_send_empty fuel data b self w Hb Hfuel)
    as [Hret | [s [buf [n [Hn Hin]]]]]; [assumption |].
  apply Hsend in Hin. lia.
Qed.

(** Six bytes over a stream that takes four bytes per call: two [send]
    calls, of four bytes each. *)
Lemma write_returns_when_send_takes_bytes_witness :
  exists v, res (write 6 (PyBytes [x61; x62; x63; x64; x65; x66])
                       (mkSocket 60 false (Some 3)) (idle_net 4)) = Ok v.
Proof.
  apply (write_returns_when_send_takes_bytes Net Net_platform 6
           (PyBytes [x61; x62; x63; x64; x65; x66])
           [x61; x62; x63; x64; x65; x66]
           (mkSocket 60 false (Some 3)) (idle_net 4)).
  - reflexivity.
  - unfold len. cbn. lia.
  - intros s buf n H. vm_compute in H.
    destruct H as [H | [H | []]]; inversion H; lia.
Defined.

(** ** Frames on the loop-back network *)

(** A payload of at least one byte whose frame fits one call: a single
    [send] appends the whole frame to the wire. *)
Lemma net_write_whole (fuel : nat) (p wire0 : bytes) (m t : Z) (d c r : bool)
    (s fd : handle) :
  p <> [] ->
  len p <= 4294967295 ->
  len p + 4 <= m ->
  exists prefix : bytes,
    pack_I (len p) = inr prefix /\
    write (S fuel) (PyBytes p) (mkSocket t d (Some s)) (mkNet wire0 m c r fd) =
    mkRun (Ok true) (mkSocket t d (Some s))
          (mkNet (wire0 ++ prefix ++ p) m c r fd)
          [EvSend s (prefix ++ p) (Done (len p + 4))].
Proof.
  intros Hne Hmax Hm.
  pose proof (len_nonneg p) as Hp0.
  assert (Hpos : 0 < len p).
  { destruct p; [contradiction | unfold len; cbn; lia]. }
  destruct (pack_I (len p)) as [e | prefix] eqn:Hpack.
  { unfold pack_I in Hpack.
    replace (0 <=? len p) with true in Hpack by (symmetry; apply Z.leb_le; lia).
    replace (len p <=? 4294967295) with true in Hpack
      by (symmetry; apply Z.leb_le; lia).
    discriminate. }
  exists prefix. split; [reflexivity |].
  destruct (unpack_pack _ _ Hpack) as [_ Hlen].
  unfold write. run_step. cbn [sock to_bytes]. run_step. rewrite Hpack. run_step.
  rewrite write_loop_eq.
  replace (0 <? len p) with true by (symmetry; apply Z.ltb_lt; lia).
  run_step. cbn [os_send Net_platform]. unfold net_send, slice_from.
  cbn [Z.ltb Z.compare Z.to_nat skipn mtu wire peer_closed reachable next_fd].
  set (data := prefix ++ p).
  assert (Hd : len data = len p + 4) by (unfold data; rewrite len_app; lia).
  rewrite Hd.
  replace (Z.max 0 (Z.min (len p + 4) m)) with (len p + 4) by lia.
  replace (Z.to_nat (len p + 4)) with (List.length data)
    by (unfold len in *; lia).
  rewrite firstn_all. run_step. rewrite write_loop_eq.
  replace (0 + (len p + 4) <? len p) with false by (symmetry; apply Z.ltb_ge; lia).
  reflexivity.
Qed.

(** X9.  Over a stream whose every call moves a whole frame, and with a
    timeout of the reader that [select] accepts, the round trip holds for
    every payload of at least one and at most 2^32-1 bytes: [write] on one
    end returns [True] and [read] on the peer returns [(True, payload)]. *)
Theorem roundtrip_of_nonempty_payload :
  forall (fuel : nat) (p : bytes) (m : Z) (t t' : Z) (d d' : bool)
         (hw hr : handle),
    0 <= t' <= 2147483647 ->
    p <> [] ->
    len p <= 4294967295 ->
    len p + 4 <= m ->
    write_then_read (S fuel) (mkSocket t d (Some hw)) (mkSocket t' d' (Some hr))
                    (PyBytes p) (idle_net m)
      = (Ok true, Ok (true, p)).
Proof.
  intros fuel p m t t' d d' hw hr _ Hne Hmax Hm.
  now apply roundtrip_whole_transfer.
Qed.

Lemma roundtrip_of_nonempty_payload_witness :
  0 <= 60 <= 2147483647 /\
  [x70; x69; x6e; x67] <> [] /\
  len [x70; x69; x6e; x67] <= 4294967295 /\
  len [x70; x69; x6e; x67] + 4 <= 1024 /\
  write_then_read 1 (mkSocket 60 false (Some 3)) (mkSocket 60 false (Some 4))
                  (PyBytes [x70; x69; x6e; x67]) (idle_net 1024)
    = (Ok true, Ok (true, [x70; x69; x6e; x67])).
Proof.
  assert (H0 : 0 <= 60 <= 2147483647) by lia.
  assert (H1 : [x70; x69; x6e; x67] <> []) by discriminate.
  assert (H2 : len [x70; x69; x6e; x67] <= 4294967295) by (unfold len; cbn; lia).
  assert (H3 : len [x70; x69; x6e; x67] + 4 <= 1024) by (unfold len; cbn; lia).
  repeat (split; [assumption |]).
  exact (roundtrip_of_nonempty_payload 0 [x70; x69; x6e; x67] 1024 60 60
           false false 3 4 H0 H1 H2 H3).
Defined.

(** X10.  Messages arrive in the order they were sent: over a stream whose
    every call moves a whole frame, and with a timeout of the reader that
    [select] accepts, two [write] calls of non-empty payloads followed by
    two [read] calls on the peer return [True], [True], [(True, first)] and
    [(True, second)], and leave the wire empty. *)
Theorem messages_arrive_in_order :
  forall (fuel : nat) (p1 p2 : bytes) (m : Z) (t t' : Z) (d d' : bool)
         (hw hr : handle),
    0 <= t' <= 2147483647 ->
    p1 <> [] -> p2 <> [] ->
    len p1 <= 4294967295 -> len p2 <= 4294967295 ->
    len p1 + 4 <= m -> len p2 + 4 <= m ->
    len p1 <= Z.of_nat fuel -> len p2 <= Z.of_nat fuel ->
    let writer := mkSocket t d (Some hw) in
    let reader := mkSocket t' d' (Some hr) in
    let w1 := write (S fuel) (PyBytes p1) writer (idle_net m) in
    let w2 := write (S fuel) (PyBytes p2) (obj w1) (world w1) in
    let r1 := read fuel 0 reader (world w2) in
    let r2 := read fuel 0 (obj r1) (world r1) in
    res w1 = Ok true /\ res w2 = Ok true /\
    res r1 = Ok (true, p1) /\ res r2 = Ok (true, p2) /\
    world r2 = idle_net m.
Proof.
  intros fuel p1 p2 m t t' d d' hw hr _ Hne1 Hne2 Hmax1 Hmax2 Hm1 Hm2 Hf1 Hf2.
  cbv zeta.
  destruct (net_write_whole fuel p1 [] m t d false true hw 5 Hne1 Hmax1 Hm1)
    as [prefix1 [Hpack1 Hw1]].
  unfold idle_net. rewrite Hw1. cbn [res obj world app].
  destruct (net_write_whole fuel p2 (prefix1 ++ p1) m t d false true hw 5
              Hne2 Hmax2 Hm2) as [prefix2 [Hpack2 Hw2]].
  rewrite Hw2. cbn [res obj world].
  pose proof (len_nonneg p1) as Hp1.
  destruct (net_read_frame fuel 0 t' d' hr p1 prefix1 (prefix2 ++ p2)
              m false true 5 Hpack1 ltac:(lia) Hf1) as [Hr1 [Hwd1 Ho1]].
  rewrite <- !app_assoc. rewrite Hr1, Hwd1, Ho1.
  destruct (net_read_frame fuel 0 t' d' hr p2 prefix2 []
              m false true 5 Hpack2 ltac:(lia) Hf2) as [Hr2 [Hwd2 Ho2]].
  rewrite app_nil_r in Hr2, Hwd2. rewrite Hr2, Hwd2.
  repeat split; reflexivity.
Qed.

Lemma messages_arrive_in_order_witness :
  let writer := mkSocket 60 false (Some 3) in
  let reader := mkSocket 60 false (Some 4) in
  let w1 := write 6 (PyBytes [x70; x69; x6e; x67]) writer (idle_net 1024) in
  let w2 := write 6 (PyBytes [x70; x6f; x6e; x67; x21]) (obj w1) (world w1) in
  let r1 := read 5 0 reader (world w2) in
  let r2 := read 5 0 (obj r1) (world r1) in
  res w1 = Ok true /\ res w2 = Ok true /\
  res r1 = Ok (true, [x70; x69; x6e; x67]) /\
  res r2 = Ok (true, [x70; x6f; x6e; x67; x21]) /\
  world r2 = idle_net 1024.
Proof.
  apply (messages_arrive_in_order 5 [x70; x69; x6e; x67]
           [x70; x6f; x6e; x67; x21] 1024 60 60 false false 3 4);
    try discriminate; unfold len; cbn; lia.
Defined.

(** ** Socket.connect: when it succeeds, and reconnecting *)

Section ConnectOutcomes.

Context {W : Type} {os : Platform W}.

(** [connect] on an object without a handle: the outcome in terms of the
    answers of the platform. *)
Lemma connect_cases (host : string) (port : Z) (self : Socket) (w : W) :
  sock self = None ->
  (exists e w1,
     os_socket w = (Failed e, w1) /\
     res (connect host port self w) = Ok false /\
     obj (connect host port self w) = self)
  \/
  (exists s w1,
     os_socket w = (Done s, w1) /\
     obj (connect host port self w) = set_sock (Some s) self /\
     ((exists w2 w3,
         os_settimeout s (timeout self) w1 = (Done tt, w2) /\
         os_connect s host port w2 = (Done tt, w3) /\
         connect host port self w =
         mkRun (Ok true) (set_sock (Some s) self) w3
           [EvSocket (Done s); EvSetTimeout s (timeout self) (Done tt);
            EvConnect s host port (Done tt)])
      \/
      (res (connect host port self w) = Ok false /\
       forall w2 w3,
         os_settimeout s (timeout self) w1 = (Done tt, w2) ->
         os_connect s host port w2 <> (Done tt, w3)))).
Proof.
  intros Hs. unfold connect. run_step. rewrite Hs. run_step.
  destruct (os_socket w) as [[s | e] w1] eqn:Hsock; run_step.
  - right. exists s, w1. split; [reflexivity |].
    destruct (os_settimeout s (timeout self) w1) as [[[] | e1] w2] eqn:Hst;
      run_step.
    + destruct (os_connect s host port w2) as [[[] | e2] w3] eqn:Hc; run_step.
      * split; [reflexivity |]. left. exists w2, w3. auto.
      * rewrite connect_except_run. split; [reflexivity |]. right.
        split; [reflexivity |]. intros w2' w3' H. injection H as <-.
        rewrite Hc. discriminate.
    + rewrite connect_except_run. split; [reflexivity |]. right.
      split; [reflexivity |]. intros w2' w3' H. discriminate.
  - left. exists e, w1. rewrite connect_except_run. auto.
Qed.

Lemma disconnect_obj (self : Socket) (w : W) :
  obj (disconnect self w) = set_sock None self.
Proof.
  unfold disconnect. run_step.
  destruct (sock self) as [s |] eqn:Hs; run_step.
  - destruct (os_shutdown s w) as [[[] | e1] w1]; run_step;
      destruct (os_close s w1) as [[[] | e2] w2]; run_step; reflexivity.
  - destruct self as [t d sk]. cbn in Hs. subst sk. reflexivity.
Qed.

End ConnectOutcomes.

(** X11.  [connect] never raises.  On an object that already holds a handle
    it returns [False] without a platform call and leaves object and
    platform as they were.  Otherwise it returns [True] exactly when
    [socket()], [settimeout(self.timeout)] and [connect((host, port))]
    succeeded one after the other, and [False] in every other case; and
    once [socket()] has succeeded, the handle of the object is the new
    socket, whichever of the two it returns. *)
Theorem connect_outcome :
  forall (W : Type) (os : Platform W) (host : string) (port : Z)
         (self : Socket) (w : W),
    match sock self with
    | Some _ =>
        connect host port self w =
        mkRun (Ok false) self w
          [EvPrint "[ERROR] (Socket.connect) could not connect, reason: socket already connected"]
    | None =>
        (res (connect host port self w) = Ok true \/
         res (connect host port self w) = Ok false) /\
        (res (connect host port self w) = Ok true <->
         exists s w1 w2 w3,
           os_socket w = (Done s, w1) /\
           os_settimeout s (timeout self) w1 = (Done tt, w2) /\
           os_connect s host port w2 = (Done tt, w3)) /\
        (forall s w1, os_socket w = (Done s, w1) ->
                      sock (obj (connect host port self w)) = Some s)
    end.
Proof.
  intros W os host port self w.
  destruct (sock self) as [s0 |] eqn:Hs.
  - now apply connect_refuses_when_set with (s := s0).
  - destruct (connect_cases host port self w Hs)
      as [[e [w1 [Hsock [Hres Hobj]]]]
         | [s [w1 [Hsock [Hobj [[w2 [w3 [Hst [Hc Hrun]]]] | [Hres Hno]]]]]]].
    + split; [now right |]. split.
      * split; [rewrite Hres; discriminate |].
        intros [s [w1' [w2 [w3 [Hsock' _]]]]]. rewrite Hsock in Hsock'.
        discriminate.
      * intros s w1' Hsock'. rewrite Hsock in Hsock'. discriminate.
    + split; [left; now rewrite Hrun |]. split.
      * split; [intros _; exists s, w1, w2, w3; auto | now rewrite Hrun].
      * intros s' w1' Hsock'. rewrite Hsock in Hsock'. injection Hsock' as <- <-.
        now rewrite Hobj.
    + split; [now right |]. split.
      * split; [rewrite Hres; discriminate |].
        intros [s' [w1' [w2 [w3 [Hsock' [Hst Hc]]]]]].
        rewrite Hsock in Hsock'. injection Hsock' as <- <-.
        now contradiction (Hno w2 w3 Hst).
      * intros s' w1' Hsock'. rewrite Hsock in Hsock'. injection Hsock' as <- <-.
        now rewrite Hobj.
Qed.

(** X12.  After [disconnect], whatever the object held and whatever
    [shutdown] and [close] answered, [connect] goes to the platform again:
    it returns [True] exactly when [socket()], [settimeout(self.timeout)]
    and [connect((host, port))] succeed in the state [disconnect] left.  So
    an object whose [connect] failed can be connected after a
    [disconnect]. *)
Theorem reconnect_after_disconnect :
  forall (W : Type) (os : Platform W) (host : string) (port : Z)
         (self : Socket) (w : W),
    let closed := disconnect self w in
    res (connect host port (obj closed) (world closed)) = Ok true <->
    exists s w1 w2 w3,
      os_socket (world closed) = (Done s, w1) /\
      os_settimeout s (timeout self) w1 = (Done tt, w2) /\
      os_connect s host port w2 = (Done tt, w3).
Proof.
  intros W os host port self w closed.
  assert (Hobj : obj closed = set_sock None self) by apply disconnect_obj.
  assert (Hs : sock (obj closed) = None) by (now rewrite Hobj).
  assert (Ht : timeout (obj closed) = timeout self) by (now rewrite Hobj).
  destruct (connect_cases host port (obj closed) (world closed) Hs)
    as [[e [w1 [Hsock [Hres _]]]]
       | [s [w1 [Hsock [_ [[w2 [w3 [Hst [Hc Hrun]]]] | [Hres Hno]]]]]]].
  - split; [rewrite Hres; discriminate |].
    intros [s [w1' [w2 [w3 [Hsock' _]]]]]. rewrite Hsock in Hsock'. discriminate.
  - rewrite Ht in Hst.
    split; [intros _; exists s, w1, w2, w3; auto | now rewrite Hrun].
  - split; [rewrite Hres; discriminate |].
    intros [s' [w1' [w2 [w3 [Hsock' [Hst Hc]]]]]].
    rewrite Hsock in Hsock'. injection Hsock' as <- <-.
    rewrite <- Ht in Hst. now contradiction (Hno w2 w3 Hst).
Qed.

(** A connect that is refused, a disconnect, and a connect once the host is
    up. *)
Example reconnect_on_the_network :
  let first := connect "host" 5551 (mkSocket 60 false None)
                       (mkNet [] 1024 false false 5) in
  let closed := disconnect (obj first) (mkNet [] 1024 false true 6) in
  let second := connect "host" 5551 (obj closed) (world closed) in
  res first = Ok false /\ sock (obj first) = Some 5 /\
  sock (obj closed) = None /\
  res second = Ok true /\ sock (obj second) = Some 6.
Proof. repeat split. Qed.

(** ** ServerBase: the accept loop *)

Lemma started_app (t1 t2 : list event) :
  started (t1 ++ t2) = started t1 ++ started t2.
Proof.
  induction t1 as [| ev t1 IH]; [reflexivity |].
  destruct ev; cbn [started app]; try assumption.
  now rewrite IH.
Qed.

Lemma connections_app (t1 t2 : list event) :
  connections (t1 ++ t2) = connections t1 ++ connections t2.
Proof.
  induction t1 as [| ev t1 IH]; [reflexivity |].
  destruct ev; cbn [connections app]; try assumption.
  destruct r; [now rewrite IH | assumption].
Qed.

Section AcceptLoop.

Context {W : Type} {os : Platform W}.

Lemma listen_eq (fuel : nat) (cb : callback) :
  __listen fuel cb =
  (self <- get_self ;;
   if running self then
     match fuel with
     | O => out_of_fuel
     | S fuel' => guarded_turn cb ;; __listen fuel' cb
     end
   else ret tt).
Proof. destruct fuel; reflexivity. Qed.

(** One turn never lets an exception out.  It leaves the listener and the
    debug flag alone, can only switch [running] off, and starts a handler
    thread for the connection it accepted, if any. *)
Lemma guarded_turn_run (cb : callback) (self : ServerBase) (w : W) :
  res (guarded_turn cb self w) = Ok tt /\
  listener (obj (guarded_turn cb self w)) = listener self /\
  server_debug (obj (guarded_turn cb self w)) = server_debug self /\
  (running (obj (guarded_turn cb self w)) = running self \/
   running (obj (guarded_turn cb self w)) = false) /\
  started (trace (guarded_turn cb self w)) =
    map (handler_thread cb (server_debug self))
        (connections (trace (guarded_turn cb self w))).
Proof.
  unfold guarded_turn, listen_turn, poll_listener. run_step.
  destruct (listener self) as [l |] eqn:Hl; run_step.
  - destruct (os_poll l w) as [[| | e |] w1]; run_step.
    + destruct (os_accept l w1) as [[c | e] w2]; run_step.
      * repeat split; auto.
      * destruct (server_debug self) eqn:Hd, (running self) eqn:Hr; run_step;
          repeat split; auto.
    + repeat split; auto.
    + destruct (server_debug self) eqn:Hd, (running self) eqn:Hr; run_step;
        repeat split; auto.
    + repeat split; auto.
  - destruct (server_debug self) eqn:Hd, (running self) eqn:Hr; run_step;
      repeat split; auto.
Qed.



Lemma listen_invariants (fuel : nat) (cb : callback) :
  forall (self : ServerBase) (w : W),
    ((res (__listen fuel cb self w) = Ok tt /\
      running (obj (__listen fuel cb self w)) = false) \/
     res (__listen fuel cb self w) = OutOfFuel) /\
    listener (obj (__listen fuel cb self w)) = listener self /\
    server_debug (obj (__listen fuel cb self w)) = server_debug self /\
    started (trace (__listen fuel cb self w)) =
      map (handler_thread cb (server_debug self))
          (connections (trace (__listen fuel cb self w))).
Proof.
  induction fuel as [| fuel IH]; intros self w; rewrite listen_eq; run_step;
    destruct (running self) eqn:Hrun; run_step; auto.
  destruct (guarded_turn_run cb self w) as [Hres [Hlis [Hdbg [_ Hthr]]]].
  destruct (guarded_turn cb self w) as [x o1 w1 t1]. cbn [res obj trace] in *.
  subst x.
  destruct (IH o1 w1) as [Hend [Hlis' [Hdbg' Hthr']]].
  rewrite !res_after, !obj_after, !trace_after. cbn [app].
  rewrite started_app, connections_app, map_app, Hthr, Hthr', Hdbg.
  repeat split; congruence.
Qed.

End AcceptLoop.

(** X13.  The accept loop lets no exception out: over every platform it
    either returns, and then [self.running] is [False], or is still polling
    when the fuel is spent.  It never changes the listener handle or the
    debug flag. *)
Theorem listen_never_raises :
  forall (W : Type) (os : Platform W) (fuel : nat) (cb : callback)
         (self : ServerBase) (w : W),
    ((res (__listen fuel cb self w) = Ok tt /\
      running (obj (__listen fuel cb self w)) = false) \/
     res (__listen fuel cb self w) = OutOfFuel) /\
    listener (obj (__listen fuel cb self w)) = listener self /\
    server_debug (obj (__listen fuel cb self w)) = server_debug self.
Proof.
  intros W os fuel cb self w.
  destruct (listen_invariants fuel cb self w) as [H1 [H2 [H3 _]]]. auto.
Qed.

(** X14.  The threads the accept loop starts are exactly the connections
    its [accept] calls returned, in order, one thread each: the callback
    with the remote address and a [Socket] that wraps the accepted socket,
    with the default timeout of 60 and the debug flag of the server. *)
Theorem listen_dispatches_each_connection :
  forall (W : Type) (os : Platform W) (fuel : nat) (cb : callback)
         (self : ServerBase) (w : W),
    started (trace (__listen fuel cb self w)) =
      map (fun c => TaskCallback cb (snd c)
                      (mkSocket 60 (server_debug self) (Some (fst c))))
          (connections (trace (__listen fuel cb self w))).
Proof.
  intros W os fuel cb self w.
  destruct (listen_invariants fuel cb self w) as [_ [_ [_ H]]]. exact H.
Qed.

(** ** ServerBase: start and stop *)

Section StartStop.

Context {W : Type} {os : Platform W}.

(** [start] on a server without a listener, up to the accept loop: what
    happens in terms of the answers of the platform. *)
Lemma start_cases (fuel : nat) (cb : callback) (port : Z) (address : string)
    (self : ServerBase) (w : W) :
  listener self = None ->
  (exists e w1,
     os_socket w = (Failed e, w1) /\
     start fuel cb port address false self w =
     mkRun (Raise e) self w1 [EvSocket (Failed e)])
  \/
  (exists l w1,
     os_socket w = (Done l, w1) /\
     ((exists e w2,
         os_bind l address port w1 = (Failed e, w2) /\
         start fuel cb port address false self w =
         mkRun (Raise e) (set_listener (Some l) self) w2
           [EvSocket (Done l); EvBind l address port (Failed e)])
      \/
      (exists w2 e w3,
         os_bind l address port w1 = (Done tt, w2) /\
         os_listen l w2 = (Failed e, w3) /\
         start fuel cb port address false self w =
         mkRun (Raise e) (set_listener (Some l) self) w3
           [EvSocket (Done l); EvBind l address port (Done tt);
            EvListen l (Failed e)])
      \/
      (exists w2 w3,
         os_bind l address port w1 = (Done tt, w2) /\
         os_listen l w2 = (Done tt, w3) /\
         start fuel cb port address false self w =
         mkRun (Ok tt) (mkServer (server_debug self) true (Some l)) w3
           [EvSocket (Done l); EvBind l address port (Done tt);
            EvListen l (Done tt); EvThread (TaskListen cb)]))).
Proof.
  intros Hl. unfold start. run_step. rewrite Hl. run_step.
  destruct (os_socket w) as [[l | e] w1] eqn:Hsock; run_step.
  - right. exists l, w1. split; [reflexivity |].
    destruct (os_bind l address port w1) as [[[] | e] w2] eqn:Hbind; run_step.
    + destruct (os_listen l w2) as [[[] | e] w3] eqn:Hlisten; run_step.
      * right; right. exists w2, w3. auto.
      * right; left. exists w2, e, w3. auto.
    + left. exists e, w2. auto.
  - left. exists e, w1. auto.
Qed.

(** [stop]: the answers of [shutdown] and [close] do not matter. *)
Lemma stop_run (self : ServerBase) (w : W) :
  res (stop self w) = Ok tt /\
  obj (stop self w) = mkServer (server_debug self) false None /\
  match listener self with
  | None => world (stop self w) = w /\ trace (stop self w) = [EvSleep 200]
  | Some l =>
      world (stop self w) = snd (os_close l (snd (os_shutdown l w))) /\
      trace (stop self w) =
        [EvSleep 200; EvShutdown l (fst (os_shutdown l w));
         EvClose l (fst (os_close l (snd (os_shutdown l w))))]
  end.
Proof.
  unfold stop, on_listener. run_step.
  cbn [listener set_running set_listener server_debug running].
  destruct (listener self) as [l |] eqn:Hl; run_step.
  - destruct (os_shutdown l w) as [[[] | e1] w1]; run_step;
      cbn [listener set_running set_listener server_debug running];
      rewrite ?Hl; run_step;
      destruct (os_close l w1) as [[[] | e2] w2]; run_step;
      repeat split; reflexivity.
  - cbn [listener set_running set_listener server_debug running].
    rewrite ?Hl. run_step. repeat split; reflexivity.
Qed.

End StartStop.

(** X15.  [stop] never raises and always leaves the server idle, with
    [running] [False] and no listener, whether or not [shutdown] and
    [close] raise.  On a listening server it sleeps 200 ms and then calls
    [shutdown] and, whatever that answered, [close] on the listener; on a
    server that is not listening it only sleeps: no platform call is
    made. *)
Theorem stop_always_idles :
  forall (W : Type) (os : Platform W) (self : ServerBase) (w : W),
    res (stop self w) = Ok tt /\
    running (obj (stop self w)) = false /\
    listener (obj (stop self w)) = None /\
    server_debug (obj (stop self w)) = server_debug self /\
    match listener self with
    | None => world (stop self w) = w /\ trace (stop self w) = [EvSleep 200]
    | Some l =>
        world (stop self w) = snd (os_close l (snd (os_shutdown l w))) /\
        trace (stop self w) =
          [EvSleep 200; EvShutdown l (fst (os_shutdown l w));
           EvClose l (fst (os_close l (snd (os_shutdown l w))))]
    end.
Proof.
  intros W os self w.
  destruct (stop_run self w) as [Hres [Hobj Hrest]].
  rewrite Hobj. repeat split; assumption.
Qed.

(** X16.  A non-blocking [start] on a server without a listener.  When
    [socket()], [bind((address, port))] and [listen()] succeed one after the
    other, and only then, it returns normally; the server then holds the
    socket that [socket()] returned with [running] [True], and one thread
    running the accept loop with the callback has been started.  When one
    of the three calls raises, that very exception leaves [start], no later
    call is made, no thread is started and [running] is unchanged; the
    server is unchanged when it is [socket()] that raised, and holds the
    socket [socket()] returned otherwise. *)
Theorem start_outcome :
  forall (W : Type) (os : Platform W) (fuel : nat) (cb : callback) (port : Z)
         (address : string) (self : ServerBase) (w : W),
    listener self = None ->
    let r := start fuel cb port address false self w in
    (res r = Ok tt ->
     exists l w1 w2 w3,
       os_socket w = (Done l, w1) /\
       os_bind l address port w1 = (Done tt, w2) /\
       os_listen l w2 = (Done tt, w3)) /\
    (forall l w1 w2 w3,
       os_socket w = (Done l, w1) ->
       os_bind l address port w1 = (Done tt, w2) ->
       os_listen l w2 = (Done tt, w3) ->
       r = mkRun (Ok tt) (mkServer (server_debug self) true (Some l)) w3
             [EvSocket (Done l); EvBind l address port (Done tt);
              EvListen l (Done tt); EvThread (TaskListen cb)]) /\
    (forall e w1,
       os_socket w = (Failed e, w1) ->
       r = mkRun (Raise e) self w1 [EvSocket (Failed e)]) /\
    (forall l w1 e w2,
       os_socket w = (Done l, w1) ->
       os_bind l address port w1 = (Failed e, w2) ->
       r = mkRun (Raise e)
             (mkServer (server_debug self) (running self) (Some l)) w2
             [EvSocket (Done l); EvBind l address port (Failed e)]) /\
    (forall l w1 w2 e w3,
       os_socket w = (Done l, w1) ->
       os_bind l address port w1 = (Done tt, w2) ->
       os_listen l w2 = (Failed e, w3) ->
       r = mkRun (Raise e)
             (mkServer (server_debug self) (running self) (Some l)) w3
             [EvSocket (Done l); EvBind l address port (Done tt);
              EvListen l (Failed e)]).
Proof.
  intros W os fuel cb port address self w Hl r. subst r.
  destruct (start_cases fuel cb port address self w Hl)
    as [[e [w1 [Hsock Hrun]]] | [l [w1 [Hsock Hrest]]]];
    [| destruct Hrest as [[e [w2 [Hbind Hrun]]] | Hrest];
       [| destruct Hrest as [[w2 [e [w3 [Hbind [Hlisten Hrun]]]]]
                            | [w2 [w3 [Hbind [Hlisten Hrun]]]]]]];
    rewrite Hrun; cbn [res]; unfold set_listener;
    (split; [try discriminate |]);
    try (intros _; exists l, w1, w2, w3; auto);
    repeat split; intros; congruence.
Qed.

(** A free port: the three calls succeed and the server holds descriptor
    3, the one [socket()] returned. *)
Lemma start_outcome_witness :
  start 0 "echo_callback" 5551 "127.0.0.1" false
        (mkServer false false None) (mkLan [] false true 3) =
  mkRun (Ok tt) (mkServer false true (Some 3)) (mkLan [] false false 4)
        [EvSocket (Done 3); EvBind 3 "127.0.0.1" 5551 (Done tt);
         EvListen 3 (Done tt); EvThread (TaskListen "echo_callback")].
Proof.
  apply (proj1 (proj2 (start_outcome Lan Lan_platform 0 "echo_callback" 5551
                         "127.0.0.1" (mkServer false false None)
                         (mkLan [] false true 3) eq_refl))
           3 (mkLan [] false true 4) (mkLan [] false false 4)
           (mkLan [] false false 4)).
  - reflexivity.
  - reflexivity.
  - reflexivity.
Defined.

(** X17.  When [socket()] succeeds and [bind] raises, [start] leaves the
    new socket in [self.__listener] although nothing listens: every later
    [start] on that object raises "server is already listening" without a
    platform call, until [stop] has cleared the handle. *)
Theorem start_after_failed_bind :
  forall (W : Type) (os : Platform W) (fuel : nat) (cb : callback) (port : Z)
         (address : string) (blocking : bool) (self : ServerBase) (w w1 w2 : W)
         (l : handle) (e : exn),
    listener self = None ->
    os_socket w = (Done l, w1) ->
    os_bind l address port w1 = (Failed e, w2) ->
    let failed := start fuel cb port address blocking self w in
    res failed = Raise e /\
    listener (obj failed) = Some l /\
    running (obj failed) = running self /\
    (forall fuel' cb' port' address' blocking' w',
        start fuel' cb' port' address' blocking' (obj failed) w' =
        mkRun (Raise (Exn OtherException "server is already listening"))
              (obj failed) w' []) /\
    (forall w', listener (obj (stop (obj failed) w')) = None).
Proof.
  intros W os fuel cb port address blocking self w w1 w2 l e Hl Hsock Hbind failed.
  assert (Hrun : failed =
                 mkRun (Raise e) (set_listener (Some l) self) w2
                   [EvSocket (Done l); EvBind l address port (Failed e)]).
  { subst failed. unfold start. run_step. rewrite Hl. run_step.
    rewrite Hsock. run_step. rewrite Hbind. reflexivity. }
  rewrite Hrun. cbn [res obj].
  split; [reflexivity |]. split; [reflexivity |]. split; [reflexivity |].
  split.
  - intros fuel' cb' port' address' blocking' w'.
    unfold start. run_step. reflexivity.
  - intros w'. destruct (stop_run (set_listener (Some l) self) w') as [_ [Hobj _]].
    now rewrite Hobj.
Qed.

(** The port is taken. *)
Lemma start_after_failed_bind_witness :
  let failed := start 0 "echo_callback" 5551 "127.0.0.1" false
                      (mkServer false false None) (mkLan [] false false 3) in
  res failed = Raise (Exn SocketError "[Errno 98] Address already in use") /\
  listener (obj failed) = Some 3 /\
  running (obj failed) = false /\
  (forall fuel' cb' port' address' blocking' w',
      start fuel' cb' port' address' blocking' (obj failed) w' =
      mkRun (Raise (Exn OtherException "server is already listening"))
            (obj failed) w' []) /\
  (forall w', listener (obj (stop (obj failed) w')) = None).
Proof.
  exact (start_after_failed_bind Lan Lan_platform 0 "echo_callback" 5551
           "127.0.0.1" false (mkServer false false None)
           (mkLan [] false false 3) (mkLan [] false false 4)
           (mkLan [] false false 4) 3
           (Exn SocketError "[Errno 98] Address already in use")
           eq_refl eq_refl eq_refl).
Defined.

(** ** A blocking start on a host with waiting connections *)




(** ** echo_callback *)

Section TraceOfBind.

Context {W O A B : Type}.



Lemma bind_ok (c : M W O A) (k : A -> M W O B) (o o' : O) (w w' : W) (a : A)
    (t : list event) :
  c o w = mkRun (Ok a) o' w' t -> bind c k o w = after t (k a o' w').
Proof. intros Hc. unfold bind. now rewrite Hc. Qed.

Lemma bind_out_of_fuel (c : M W O A) (k : A -> M W O B) (o : O) (w : W) :
  res (c o w) = OutOfFuel -> res (bind c k o w) = OutOfFuel.
Proof.
  unfold bind. destruct (c o w) as [[a | e | |] o' w' t]; cbn [res];
    try discriminate. reflexivity.
Qed.


End TraceOfBind.

Section Echo.

Context {W : Type} {os : Platform W}.

Lemma read_ok_or_out_of_fuel (fuel : nat) (t : Z) (self : Socket) (w : W) :
  (exists v, res (read fuel t self w) = Ok v) \/
  res (read fuel t self w) = OutOfFuel.
Proof.
  destruct (sock self) as [s |] eqn:Hs.
  - destruct (read_cases fuel t self w s Hs)
      as [[w1 [_ Hrun]] | [[Herr _] | [w1 [w2 [header [ml [_ [_ [_ [Hres _]]]]]]]]]].
    + left. rewrite Hrun. cbn [res]. eauto.
    + left. eauto.
    + destruct (res (read_loop fuel s ml 0 [] self w2)); try contradiction; eauto.
  - left. rewrite read_not_connected by assumption. cbn [res]. eauto.
Qed.

Lemma write_bytes_ok_or_out_of_fuel (fuel : nat) (b : bytes) (self : Socket)
    (w : W) :
  (exists v, res (write fuel (PyBytes b) self w) = Ok v) \/
  res (write fuel (PyBytes b) self w) = OutOfFuel.
Proof.
  destruct (sock self) as [s |] eqn:Hs.
  - destruct (write_cases fuel (PyBytes b) b self w s Hs eq_refl)
      as [[e [_ Hrun]] | [prefix [_ Hloop]]].
    + left. rewrite Hrun. cbn [res]. eauto.
    + destruct (res (write_loop fuel s (prefix ++ b) (len b) 0 self w));
        try contradiction; destruct Hloop as [Hr _]; eauto.
  - left. unfold write. run_step. rewrite Hs. run_step. eauto.
Qed.

Lemma disconnect_res (self : Socket) (w : W) : res (disconnect self w) = Ok tt.
Proof.
  unfold disconnect. run_step.
  destruct (sock self) as [s |]; run_step; [| reflexivity].
  destruct (os_shutdown s w) as [[[] | e1] w1]; run_step;
    destruct (os_close s w1) as [[[] | e2] w2]; run_step; reflexivity.
Qed.

End Echo.

(** X19.  The echo handler lets no exception out and, unless one of its two
    loops is still running when the fuel is spent, it ends with the socket
    disconnected, whether the read and the write succeeded or failed. *)
Theorem echo_always_disconnects :
  forall (W : Type) (os : Platform W) (fuel : nat) (addr : string * Z)
         (self : Socket) (w : W),
    (res (echo_callback fuel addr self w) = Ok tt /\
     sock (obj (echo_callback fuel addr self w)) = None) \/
    res (echo_callback fuel addr self w) = OutOfFuel.
Proof.
  intros W os fuel addr self w. unfold echo_callback.
  destruct (read_ok_or_out_of_fuel fuel 0 self w) as [[v Hv] | Hv];
    [| right; now apply bind_out_of_fuel].
  destruct (read fuel 0 self w) as [x o1 w1 t1] eqn:Hread.
  cbn [res] in Hv. subst x.
  rewrite (bind_ok _ _ _ _ _ _ _ _ Hread), res_after, obj_after.
  destruct (write_bytes_ok_or_out_of_fuel fuel (snd v) o1 w1) as [[b Hb] | Hb];
    [| right; now apply bind_out_of_fuel].
  destruct (write fuel (PyBytes (snd v)) o1 w1) as [x o2 w2 t2] eqn:Hwrite.
  cbn [res] in Hb. subst x.
  rewrite (bind_ok _ _ _ _ _ _ _ _ Hwrite), res_after, obj_after.
  rewrite disconnect_res, disconnect_obj. now left.
Qed.



(** ** How the accept loop ends *)

Section LoopExit.

Context {W : Type} {os : Platform W}.



End LoopExit.



(** ** Socket.disconnect and the configuration of a Socket *)

(** X22.  [disconnect] on a connected socket calls [shutdown] once and
    then, whatever [shutdown] answered, [close] once, on the socket it
    held, and nothing else; on a socket that is not connected it does
    nothing at all. *)
Theorem disconnect_always_closes :
  forall (W : Type) (os : Platform W) (self : Socket) (w : W),
    match sock self with
    | None => disconnect self w = mkRun (Ok tt) self w []
    | Some s =>
        trace (disconnect self w) =
          [EvShutdown s (fst (os_shutdown s w));
           EvClose s (fst (os_close s (snd (os_shutdown s w))))] /\
        world (disconnect self w) = snd (os_close s (snd (os_shutdown s w)))
    end.
Proof.
  intros W os self w. unfold disconnect. run_step.
  destruct (sock self) as [s |]; run_step; [| reflexivity].
  destruct (os_shutdown s w) as [[[] | e1] w1]; run_step;
    destruct (os_close s w1) as [[[] | e2] w2]; run_step;
    split; reflexivity.
Qed.

(** X23.  No method of [Socket] changes [self.timeout] or [self.debug]:
    after [connect], [read], [write] and [disconnect], whatever the
    outcome, both are what they were. *)
Theorem socket_configuration_is_kept :
  forall (W : Type) (os : Platform W) (fuel : nat) (host : string) (port t : Z)
         (data : pydata) (self : Socket) (w : W),
    (timeout (obj (connect host port self w)) = timeout self /\
     debug (obj (connect host port self w)) = debug self) /\
    (timeout (obj (read fuel t self w)) = timeout self /\
     debug (obj (read fuel t self w)) = debug self) /\
    (timeout (obj (write fuel data self w)) = timeout self /\
     debug (obj (write fuel data self w)) = debug self) /\
    (timeout (obj (disconnect self w)) = timeout self /\
     debug (obj (disconnect self w)) = debug self).
Proof.
  intros W os fuel host port t data self w.
  destruct (quiet_read fuel t self w) as [Hr _].
  destruct (quiet_write fuel data self w) as [Hw _].
  rewrite Hr, Hw, disconnect_obj.
  repeat split; try reflexivity;
    (destruct (sock self) as [s0 |] eqn:Hs;
     [ rewrite (connect_refuses_when_set host port self w s0 Hs); reflexivity
     | destruct (connect_cases host port self w Hs)
         as [[e [w1 [_ [_ Hobj]]]] | [s [w1 [_ [Hobj _]]]]];
       rewrite Hobj; reflexivity ]).
Qed.
